(** * gaya_dq: check functions, baseline store and runner

    A shallow embedding of the pure check functions ([gaya.checks]), of the
    baseline store ([gaya.baseline.store]) and of the per-table runner
    ([gaya.runner]), followed by the properties proved about them.

    Conventions of the embedding:
    - Python [int] is [Z]; Python [float] is idealised as an exact rational
      [Q] (thresholds are the fractions they denote, true division is exact,
      rounding is outside the model);
    - [dict[str, str]] is [gmap string string] (equality of dicts is equality
      of maps), a [set] of names is [gset string], tuples and lists are lists;
    - a Python exception is a value [Raise e] of the [result] type;
    - an f-string is the list of its fragments, literal text and formatted
      arguments, so that what a message reports can be read back. *)

From Stdlib Require Import ZArith QArith String Ascii List Sorted Lia.
From stdpp Require Import gmap strings list sorting.
Import ListNotations.

Local Open Scope Z_scope.

(** ** Python primitives *)

Inductive exn : Type :=
  | KeyError
  | JSONDecodeError
  | TypeError
  | AttributeError.

Inductive result (A : Type) : Type :=
  | Ok (a : A)
  | Raise (e : exn).
Arguments Ok {A} a.
Arguments Raise {A} e.

#[global] Instance result_ret : MRet result := fun A a => Ok a.

#[global] Instance result_bind : MBind result := fun A B k r =>
  match r with
  | Ok a => k a
  | Raise e => Raise e
  end.

(** [x >= y] on floats. *)
Definition Qge_bool (x y : Q) : bool := Qle_bool y x.

(** [s.replace(old, new)] for one-character [old] and [new]. *)
Fixpoint replace (old new : ascii) (s : string) : string :=
  match s with
  | EmptyString => EmptyString
  | String c s' =>
      String (if Ascii.eqb c old then new else c) (replace old new s')
  end.

(** [s.lower()] on the ASCII letters; column types are ASCII tags. *)
Definition lower_ascii (c : ascii) : ascii :=
  let n := nat_of_ascii c in
  if (Nat.leb 65 n && Nat.leb n 90)%bool then ascii_of_nat (n + 32) else c.

Fixpoint lower (s : string) : string :=
  match s with
  | EmptyString => EmptyString
  | String c s' => String (lower_ascii c) (lower s')
  end.

(** [sep.join(names)]. *)
Definition join (sep : string) (names : list string) : string :=
  String.concat sep names.

(** The order of [str]: code point order, which on UTF-8 bytes is the
    lexicographic order of the bytes. *)
Definition str_le : relation string :=
  fun a b => Stdlib.Strings.String.leb a b = true.

#[global] Instance str_le_dec : RelDecision str_le :=
  fun a b => decide (Stdlib.Strings.String.leb a b = true).

(** [sorted(s)] for a set of names. *)
Definition sorted (s : gset string) : list string :=
  merge_sort str_le (elements s).

(** ** gaya.checks.base *)

Inductive Status : Type := PASS | WARN | FAIL.

Inductive Layer : Type := UPSTREAM | STAGING | DOWNSTREAM.

Definition Layer_value (l : Layer) : string :=
  match l with
  | UPSTREAM => "upstream"
  | STAGING => "staging"
  | DOWNSTREAM => "downstream"
  end.

(** Fragments of an f-string. *)
Inductive fragment : Type :=
  | Lit (s : string)            (* literal text of the template *)
  | Str (s : string)            (* {s} with s a str *)
  | Num (n : Z)                 (* {n} with n an int *)
  | Commas (n : Z)              (* {n:,} *)
  | Pct (q : Q)                 (* {q:.1%} *)
  | Repr (names : list string). (* {names} with names a list of str *)

Definition fstring : Type := list fragment.

(** The values that travel in fields typed [Any]. *)
Inductive any : Type :=
  | AnyFloat (q : Q)
  | AnyInt (n : Z)
  | AnyStr (s : fstring)
  | AnyList (names : list string).

Module ColumnStats.
Record t : Type := mk {
  name : string;
  dtype : string;
  row_count : Z;
  null_count : Z;
  distinct_count : Z;
  min_value : option any;
  max_value : option any;
  sample_values : list any
}.

Definition null_pct (self : t) : Q :=
  if row_count self =? 0 then 0%Q
  else (inject_Z (null_count self) / inject_Z (row_count self))%Q.
End ColumnStats.

Module TableStats.
Record t : Type := mk {
  table_name : string;
  layer : Layer;
  row_count : Z;
  columns : list ColumnStats.t;
  schema : gmap string string;
  collected_at : string
}.

(** [next((c for c in self.columns if c.name == name), None)] *)
Definition column (self : t) (name : string) : option ColumnStats.t :=
  List.find (fun c => String.eqb (ColumnStats.name c) name) (columns self).

Definition column_names (self : t) : list string :=
  List.map ColumnStats.name (columns self).
End TableStats.

Module Baseline.
Record t : Type := mk {
  table_name : string;
  row_count : Z;
  schema : gmap string string;
  run_at : string;
  run_count : Z
}.
End Baseline.

Module CheckResult.
Record t : Type := mk {
  check : string;
  table : string;
  layer : Layer;
  status : Status;
  message : fstring;
  column : option string;
  expected : option any;
  actual : option any;
  hint : option string
}.
End CheckResult.

(** Result builders; the keyword arguments are the four optional fields. *)
Definition passed (check table : string) (layer : Layer) (message : fstring)
    (column : option string) (expected actual : option any)
    (hint : option string) : CheckResult.t :=
  CheckResult.mk check table layer PASS message column expected actual hint.

Definition warned (check table : string) (layer : Layer) (message : fstring)
    (column : option string) (expected actual : option any)
    (hint : option string) : CheckResult.t :=
  CheckResult.mk check table layer WARN message column expected actual hint.

Definition failed (check table : string) (layer : Layer) (message : fstring)
    (column : option string) (expected actual : option any)
    (hint : option string) : CheckResult.t :=
  CheckResult.mk check table layer FAIL message column expected actual hint.

Module NullConfig.
Record t : Type := mk {
  columns : option (list string);
  warn_pct : Q;
  fail_pct : Q
}.
Definition default : t := mk None (10 # 100) (25 # 100).
End NullConfig.

Module RequiredConfig.
Record t : Type := mk { columns : list string }.
End RequiredConfig.

Module UniqueConfig.
Record t : Type := mk { columns : list string }.
End UniqueConfig.

Module RowCountConfig.
Record t : Type := mk { min_rows : option Z; max_rows : option Z }.
End RowCountConfig.

Module VolumeChangeConfig.
Record t : Type := mk { warn_pct : Q; fail_pct : Q }.
Definition default : t := mk (20 # 100) (40 # 100).
End VolumeChangeConfig.

Module SchemaConfig.
(** [expected] is iterated with [.items()]: the pairs in insertion order. *)
Record t : Type := mk { expected : list (string * string) }.
End SchemaConfig.

Module SchemaDriftConfig.
Record t : Type := mk { baseline_columns : list string }.
End SchemaDriftConfig.


(** ** gaya.checks.completeness *)

(** The columns the loop of [check_null_rate] visits: the configured names,
    each resolved by [stats.column], when [config.columns] is truthy, and
    every column of the table otherwise.  [None] and the empty tuple are both
    falsy. *)
Definition columns_to_check (stats : TableStats.t) (config : NullConfig.t)
    : list (option ColumnStats.t) :=
  match NullConfig.columns config with
  | Some ((_ :: _) as names) => List.map (TableStats.column stats) names
  | _ => List.map Some (TableStats.columns stats)
  end.

(** One iteration of the loop of [check_null_rate]: every branch appends
    exactly one result. *)
Definition null_rate_result (stats : TableStats.t) (config : NullConfig.t)
    (col : option ColumnStats.t) : CheckResult.t :=
  match col with
  | None =>
      failed "null_rate" (TableStats.table_name stats) (TableStats.layer stats)
        [Lit "Column specified in null check does not exist in table."]
        (Some "unknown") None None
        (Some "Check your gaya.yml — column name may be misspelled.")
  | Some col =>
      let pct := ColumnStats.null_pct col in
      if Qeq_bool pct 0 then
        passed "null_rate" (TableStats.table_name stats)
          (TableStats.layer stats)
          [Lit "'"; Str (ColumnStats.name col); Lit "' has no nulls."]
          (Some (ColumnStats.name col)) None (Some (AnyFloat 0)) None
      else if Qge_bool pct (NullConfig.fail_pct config) then
        failed "null_rate" (TableStats.table_name stats)
          (TableStats.layer stats)
          [Lit "'"; Str (ColumnStats.name col); Lit "' is "; Pct pct;
           Lit " null — exceeds fail threshold of ";
           Pct (NullConfig.fail_pct config); Lit "."]
          (Some (ColumnStats.name col))
          (Some (AnyStr [Lit "< "; Pct (NullConfig.fail_pct config)]))
          (Some (AnyStr [Pct pct])) None
      else if Qge_bool pct (NullConfig.warn_pct config) then
        warned "null_rate" (TableStats.table_name stats)
          (TableStats.layer stats)
          [Lit "'"; Str (ColumnStats.name col); Lit "' is "; Pct pct;
           Lit " null — above warn threshold of ";
           Pct (NullConfig.warn_pct config); Lit "."]
          (Some (ColumnStats.name col))
          (Some (AnyStr [Lit "< "; Pct (NullConfig.warn_pct config)]))
          (Some (AnyStr [Pct pct])) None
      else
        passed "null_rate" (TableStats.table_name stats)
          (TableStats.layer stats)
          [Lit "'"; Str (ColumnStats.name col); Lit "' null rate "; Pct pct;
           Lit " is within threshold."]
          (Some (ColumnStats.name col)) None (Some (AnyStr [Pct pct])) None
  end.

Definition check_null_rate (stats : TableStats.t) (config : NullConfig.t)
    : list CheckResult.t :=
  List.map (null_rate_result stats config) (columns_to_check stats config).

(** One iteration of the loop of [check_required_columns]. *)
Definition required_result (stats : TableStats.t) (col_name : string)
    : CheckResult.t :=
  match TableStats.column stats col_name with
  | None =>
      failed "required_columns" (TableStats.table_name stats)
        (TableStats.layer stats)
        [Lit "Required column '"; Str col_name;
         Lit "' is missing from the table entirely."]
        (Some col_name) None None
        (Some "Verify the column exists in the source and hasn't been renamed.")
  | Some col =>
      if ColumnStats.null_count col >? 0 then
        failed "required_columns" (TableStats.table_name stats)
          (TableStats.layer stats)
          [Lit "Required column '"; Str col_name; Lit "' has ";
           Commas (ColumnStats.null_count col); Lit " null(s) (";
           Pct (ColumnStats.null_pct col); Lit " of ";
           Commas (TableStats.row_count stats); Lit " rows)."]
          (Some col_name) (Some (AnyInt 0))
          (Some (AnyInt (ColumnStats.null_count col)))
          (Some "This column is marked required — nulls here indicate an upstream issue.")
      else
        passed "required_columns" (TableStats.table_name stats)
          (TableStats.layer stats)
          [Lit "Required column '"; Str col_name; Lit "' is complete."]
          (Some col_name) None None None
  end.

Definition check_required_columns (stats : TableStats.t)
    (config : RequiredConfig.t) : list CheckResult.t :=
  List.map (required_result stats) (RequiredConfig.columns config).

(** ** gaya.checks.uniqueness *)

Definition check_unique (stats : TableStats.t) (config : UniqueConfig.t)
    : list CheckResult.t :=
  match UniqueConfig.columns config with
  | [col_name] =>
      match TableStats.column stats col_name with
      | None =>
          [failed "unique" (TableStats.table_name stats)
             (TableStats.layer stats)
             [Lit "Column '"; Str col_name;
              Lit "' specified for uniqueness check does not exist."]
             (Some col_name) None None
             (Some "Check your gaya.yml for a misspelled column name.")]
      | Some col =>
          let duplicates :=
            ColumnStats.row_count col - ColumnStats.distinct_count col in
          if duplicates >? 0 then
            [failed "unique" (TableStats.table_name stats)
               (TableStats.layer stats)
               [Lit "'"; Str col_name; Lit "' has "; Commas duplicates;
                Lit " duplicate value(s) across ";
                Commas (ColumnStats.row_count col); Lit " rows (";
                Commas (ColumnStats.distinct_count col); Lit " distinct)."]
               (Some col_name) (Some (AnyStr [Lit "all distinct"]))
               (Some (AnyStr [Commas duplicates; Lit " duplicates"]))
               (Some "Duplicates in a key column usually indicate a pipeline loading the same records more than once.")]
          else
            [passed "unique" (TableStats.table_name stats)
               (TableStats.layer stats)
               [Lit "'"; Str col_name; Lit "' is fully unique (";
                Commas (ColumnStats.distinct_count col);
                Lit " distinct values)."]
               (Some col_name) None None None]
      end
  | columns =>
      let composite_name := join "|" columns in
      match TableStats.column stats composite_name with
      | None =>
          [failed "unique" (TableStats.table_name stats)
             (TableStats.layer stats)
             [Lit "Composite key uniqueness check requires columns ";
              Repr columns;
              Lit " — one or more are missing from the table."]
             (Some composite_name) None None
             (Some "Verify all composite key columns exist in the table.")]
      | Some col =>
          let duplicates :=
            ColumnStats.row_count col - ColumnStats.distinct_count col in
          if duplicates >? 0 then
            [failed "unique" (TableStats.table_name stats)
               (TableStats.layer stats)
               [Lit "Composite key "; Repr columns; Lit " has ";
                Commas duplicates; Lit " duplicate combination(s) across ";
                Commas (ColumnStats.row_count col); Lit " rows."]
               (Some composite_name) (Some (AnyStr [Lit "all distinct"]))
               (Some (AnyStr [Commas duplicates;
                              Lit " duplicate combinations"]))
               (Some "Composite key duplicates may indicate a missing deduplication step or an unintended cross-join upstream.")]
          else
            [passed "unique" (TableStats.table_name stats)
               (TableStats.layer stats)
               [Lit "Composite key "; Repr columns; Lit " is fully unique (";
                Commas (ColumnStats.distinct_count col);
                Lit " distinct combinations)."]
               (Some composite_name) None None None]
      end
  end.

(** ** gaya.checks.volume *)

Definition check_row_count (stats : TableStats.t) (config : RowCountConfig.t)
    : list CheckResult.t :=
  let count := TableStats.row_count stats in
  (* the [elif] and [else] arms *)
  let otherwise :=
    match RowCountConfig.max_rows config with
    | Some max_rows =>
        if count >? max_rows then
          [failed "row_count" (TableStats.table_name stats)
             (TableStats.layer stats)
             [Lit "Row count "; Commas count; Lit " exceeds maximum ";
              Commas max_rows; Lit "."]
             None (Some (AnyStr [Lit "<= "; Commas max_rows]))
             (Some (AnyStr [Commas count]))
             (Some "This may indicate duplicate rows or an unintended full reload.")]
        else
          [passed "row_count" (TableStats.table_name stats)
             (TableStats.layer stats)
             [Lit "Row count "; Commas count;
              Lit " is within expected range."]
             None None (Some (AnyStr [Commas count])) None]
    | None =>
        [passed "row_count" (TableStats.table_name stats)
           (TableStats.layer stats)
           [Lit "Row count "; Commas count; Lit " is within expected range."]
           None None (Some (AnyStr [Commas count])) None]
    end in
  match RowCountConfig.min_rows config with
  | Some min_rows =>
      if count <? min_rows then
        [failed "row_count" (TableStats.table_name stats)
           (TableStats.layer stats)
           [Lit "Row count "; Commas count; Lit " is below minimum ";
            Commas min_rows; Lit "."]
           None (Some (AnyStr [Lit ">= "; Commas min_rows]))
           (Some (AnyStr [Commas count]))
           (Some "The table may not have loaded correctly or the source is empty.")]
      else otherwise
  | None => otherwise
  end.

(** The locals of [check_volume_change] once a baseline is there. *)
Definition volume_delta (current previous : Z) : Z := current - previous.

Definition volume_change_pct (current previous : Z) : Q :=
  (inject_Z (Z.abs (volume_delta current previous))
   / inject_Z (Z.max previous 1))%Q.

Definition volume_direction (delta : Z) : string :=
  if delta >? 0 then "increased" else "dropped".

Definition volume_sign (delta : Z) : string :=
  if delta >? 0 then "+" else "-".

Definition check_volume_change (stats : TableStats.t)
    (config : VolumeChangeConfig.t) (baseline : option Baseline.t)
    : list CheckResult.t :=
  let current := TableStats.row_count stats in
  match baseline with
  | None =>
      [passed "volume_change" (TableStats.table_name stats)
         (TableStats.layer stats)
         [Lit "No baseline found for '"; Str (TableStats.table_name stats);
          Lit "'. Baseline set at "; Commas current;
          Lit " rows. Run again to detect volume changes."]
         None None (Some (AnyStr [Commas current])) None]
  | Some baseline =>
      let previous := Baseline.row_count baseline in
      let delta := volume_delta current previous in
      let change_pct := volume_change_pct current previous in
      let direction := volume_direction delta in
      let sign := volume_sign delta in
      if Qge_bool change_pct (VolumeChangeConfig.fail_pct config) then
        [failed "volume_change" (TableStats.table_name stats)
           (TableStats.layer stats)
           [Lit "Row count "; Str direction; Lit " "; Pct change_pct;
            Lit " ("; Commas previous; Lit " → "; Commas current; Lit ", ";
            Str sign; Commas (Z.abs delta); Lit " rows)."]
           None
           (Some (AnyStr [Lit "< "; Pct (VolumeChangeConfig.fail_pct config);
                          Lit " change"]))
           (Some (AnyStr [Pct change_pct; Lit " "; Str direction]))
           (Some (if delta <? 0
                  then "A drop this large usually means a failed upstream load or a filter was applied unintentionally."
                  else "A spike this large may indicate duplicate rows or a full reload."))]
      else if Qge_bool change_pct (VolumeChangeConfig.warn_pct config) then
        [warned "volume_change" (TableStats.table_name stats)
           (TableStats.layer stats)
           [Lit "Row count "; Str direction; Lit " "; Pct change_pct;
            Lit " ("; Commas previous; Lit " → "; Commas current; Lit ", ";
            Str sign; Commas (Z.abs delta); Lit " rows)."]
           None
           (Some (AnyStr [Lit "< "; Pct (VolumeChangeConfig.warn_pct config);
                          Lit " change"]))
           (Some (AnyStr [Pct change_pct; Lit " "; Str direction])) None]
      else
        [passed "volume_change" (TableStats.table_name stats)
           (TableStats.layer stats)
           [Lit "Row count stable: "; Commas previous; Lit " → ";
            Commas current; Lit " ("; Str sign; Commas (Z.abs delta);
            Lit " rows, "; Pct change_pct; Lit " change)."]
           None None (Some (AnyStr [Pct change_pct; Lit " change"])) None]
  end.

(** ** gaya.checks.schema *)

(** One iteration of the loop of [check_schema] over [expected.items()]. *)
Definition schema_result (stats : TableStats.t) (item : string * string)
    : CheckResult.t :=
  let '(col_name, expected_dtype) := item in
  match TableStats.schema stats !! col_name with
  | None =>
      failed "schema" (TableStats.table_name stats) (TableStats.layer stats)
        [Lit "Expected column '"; Str col_name; Lit "' ("; Str expected_dtype;
         Lit ") is missing from the table."]
        (Some col_name) (Some (AnyStr [Str expected_dtype])) None
        (Some "Column may have been dropped or renamed upstream.")
  | Some actual_dtype =>
      if negb (String.eqb (lower actual_dtype) (lower expected_dtype)) then
        failed "schema" (TableStats.table_name stats) (TableStats.layer stats)
          [Lit "'"; Str col_name; Lit "' type mismatch: expected '";
           Str expected_dtype; Lit "', found '"; Str actual_dtype; Lit "'."]
          (Some col_name) (Some (AnyStr [Str expected_dtype]))
          (Some (AnyStr [Str actual_dtype]))
          (Some "A dtype change can silently break downstream queries. Verify this was intentional.")
      else
        passed "schema" (TableStats.table_name stats) (TableStats.layer stats)
          [Lit "'"; Str col_name; Lit "' is '"; Str actual_dtype;
           Lit "' as expected."]
          (Some col_name) (Some (AnyStr [Str expected_dtype]))
          (Some (AnyStr [Str actual_dtype])) None
  end.

Definition check_schema (stats : TableStats.t) (config : SchemaConfig.t)
    : list CheckResult.t :=
  List.map (schema_result stats) (SchemaConfig.expected config).

(** [set(stats.column_names())] *)
Definition current_cols (stats : TableStats.t) : gset string :=
  list_to_set (TableStats.column_names stats).

(** [set(baseline.schema.keys())] *)
Definition baseline_cols (baseline : Baseline.t) : gset string :=
  dom (Baseline.schema baseline).

(** [len(s)] of a set, as a Python int. *)
Definition len (s : gset string) : Z := Z.of_nat (size s).

Definition check_schema_drift (stats : TableStats.t)
    (config : SchemaDriftConfig.t) (baseline : option Baseline.t)
    : list CheckResult.t :=
  let current_cols := current_cols stats in
  match baseline with
  | None =>
      [passed "schema_drift" (TableStats.table_name stats)
         (TableStats.layer stats)
         [Lit "No baseline schema found for '";
          Str (TableStats.table_name stats);
          Lit "'. Schema recorded with "; Num (len current_cols);
          Lit " columns. Run again to detect drift."]
         None None (Some (AnyList (sorted current_cols))) None]
  | Some baseline =>
      let baseline_cols := baseline_cols baseline in
      let added := current_cols ∖ baseline_cols in
      let removed := baseline_cols ∖ current_cols in
      if bool_decide (added = ∅) && bool_decide (removed = ∅) then
        [passed "schema_drift" (TableStats.table_name stats)
           (TableStats.layer stats)
           [Lit "Schema unchanged. "; Num (len current_cols);
            Lit " columns match baseline."]
           None None None None]
      else
        (if bool_decide (removed ≠ ∅) then
           [failed "schema_drift" (TableStats.table_name stats)
              (TableStats.layer stats)
              [Num (len removed);
               Lit " column(s) removed since last run: ";
               Repr (sorted removed); Lit "."]
              None (Some (AnyList (sorted baseline_cols)))
              (Some (AnyList (sorted current_cols)))
              (Some "Removed columns break downstream SELECT * queries and any explicit column references. Verify this was intentional.")]
         else [])
        ++
        (if bool_decide (added ≠ ∅) then
           [warned "schema_drift" (TableStats.table_name stats)
              (TableStats.layer stats)
              [Num (len added);
               Lit " new column(s) detected since last run: ";
               Repr (sorted added); Lit "."]
              None (Some (AnyList (sorted baseline_cols)))
              (Some (AnyList (sorted current_cols)))
              (Some "New columns are usually safe, but verify they're intentional and documented.")]
         else [])
  end.

(** ** gaya.baseline.store *)

Definition GAYA_VERSION : string := "0.1.0".

(** A JSON object as [load] reads it and [save] writes it: each of the six
    keys of a baseline record is present with a value or absent.  A value
    that is present has the type the [Baseline] dataclass declares for it;
    objects with values of other types are outside the model. *)
Module BaselineJson.
Record t : Type := mk {
  table_name : option string;
  row_count : option Z;
  schema : option (gmap string string);
  run_at : option string;
  run_count : option Z;
  gaya_version : option string
}.
End BaselineJson.

(** What [json.loads] returns. *)
Inductive json : Type :=
  | JObject (o : BaselineJson.t)  (* a dict *)
  | JOther.                       (* a list, str, int, float, bool or None *)

(** The text of a file of the baseline directory, told apart by what
    [json.loads] does on it. *)
Inductive file : Type :=
  | Text (v : json)   (* a JSON document denoting v *)
  | Garbage.          (* not JSON: json.loads raises JSONDecodeError *)

(** The baseline directory [.gaya/baselines]: its files by name. *)
Abbreviation store := (gmap string file).

Definition json_loads (text : file) : result json :=
  match text with
  | Text v => Ok v
  | Garbage => Raise JSONDecodeError
  end.

(** [data[key]] *)
Definition getitem {A} (data : json) (key : BaselineJson.t -> option A)
    : result A :=
  match data with
  | JObject o =>
      match key o with
      | Some v => Ok v
      | None => Raise KeyError
      end
  | JOther => Raise TypeError
  end.

(** [data.get(key, default)] *)
Definition get {A} (data : json) (key : BaselineJson.t -> option A)
    (default : A) : result A :=
  match data with
  | JObject o =>
      match key o with
      | Some v => Ok v
      | None => Ok default
      end
  | JOther => Raise AttributeError
  end.

Module BaselineStore.

(** The name, inside the baseline directory, of the file of a table. *)
Definition _path (table_name : string) : string :=
  let safe := replace "/" "_" (replace "." "_" table_name) in
  String.append safe ".json".

Definition load (self : store) (table_name : string)
    : result (option Baseline.t) :=
  let path := _path table_name in
  match self !! path with
  | None => Ok None
  | Some text =>
      let body : result (option Baseline.t) :=
        data ← json_loads text;
        table_name ← getitem data BaselineJson.table_name;
        row_count ← getitem data BaselineJson.row_count;
        schema ← getitem data BaselineJson.schema;
        run_at ← getitem data BaselineJson.run_at;
        run_count ← get data BaselineJson.run_count 1;
        mret (Some (Baseline.mk table_name row_count schema run_at run_count))
      in
      match body with
      | Ok baseline => Ok baseline
      | Raise KeyError | Raise JSONDecodeError => Ok None
      | Raise exc => Raise exc
      end
  end.

Definition _has_changed (baseline : Baseline.t) (stats : TableStats.t)
    : bool :=
  negb (Baseline.row_count baseline =? TableStats.row_count stats)
  || negb (bool_decide (Baseline.schema baseline = TableStats.schema stats)).

(** [save] returns its boolean together with the directory it leaves.
    Creating the directory itself ([mkdir]) does not touch its files. *)
Definition save (self : store) (stats : TableStats.t)
    : result (bool * store) :=
  let path := _path (TableStats.table_name stats) in
  existing ← load self (TableStats.table_name stats);
  if match existing with
     | Some existing => negb (_has_changed existing stats)
     | None => false
     end
  then Ok (false, self)
  else
    let run_count :=
      match existing with
      | Some existing => Baseline.run_count existing + 1
      | None => 1
      end in
    let data :=
      BaselineJson.mk (Some (TableStats.table_name stats))
        (Some (TableStats.row_count stats))
        (Some (TableStats.schema stats))
        (Some (TableStats.collected_at stats))
        (Some run_count) (Some GAYA_VERSION) in
    Ok (true, <[path := Text (JObject data)]> self).

End BaselineStore.

(** ** gaya.runner *)

Module TableConfig.
Record t : Type := mk {
  table : string;
  layer : string;
  source : string;
  null : option NullConfig.t;
  required : option RequiredConfig.t;
  unique : option UniqueConfig.t;
  row_count : option RowCountConfig.t;
  volume : option VolumeChangeConfig.t;
  schema : option SchemaConfig.t;
  drift : option SchemaDriftConfig.t;
  run_null_check : bool;
  run_volume_check : bool;
  run_drift_check : bool
}.
End TableConfig.

Module RunResult.
Record t : Type := mk {
  table : string;
  layer : string;
  results : list CheckResult.t;
  baseline_updated : bool;
  error : option string
}.
End RunResult.

(** The runner talks to its store through two methods.  A run is the tree of
    the calls it makes on the store, each followed by what it does with the
    answer, down to the value it returns. *)
Inductive store_call : Type -> Type :=
  | call_load (table_name : string) : store_call (option Baseline.t)
  | call_save (stats : TableStats.t) : store_call bool.

Inductive prog (A : Type) : Type :=
  | Ret (a : A)
  | Call {X : Type} (c : store_call X) (k : X -> prog A).
Arguments Ret {A} a.
Arguments Call {A X} c k.

Fixpoint prog_bind {A B} (k : A -> prog B) (p : prog A) : prog B :=
  match p with
  | Ret a => k a
  | Call c k' => Call c (fun x => prog_bind k (k' x))
  end.

#[global] Instance prog_ret : MRet prog := fun A a => Ret a.
#[global] Instance prog_mbind : MBind prog := fun A B k p => prog_bind k p.

Module Runner.

(** [self._store.load(table_name)] and [self._store.save(stats)] *)
Definition _store_load (table_name : string) : prog (option Baseline.t) :=
  Call (call_load table_name) Ret.

Definition _store_save (stats : TableStats.t) : prog bool :=
  Call (call_save stats) Ret.

(** The default [baseline_columns] are the keys of the baseline schema; no
    check reads them, so the order in which the map lists them is not
    observable. *)
Definition run (stats : TableStats.t) (config : TableConfig.t)
    : prog RunResult.t :=
  baseline ← _store_load (TableStats.table_name stats);
  let results : list CheckResult.t := [] in
  (* 1. schema checks *)
  let results :=
    match TableConfig.schema config with
    | Some schema => results ++ check_schema stats schema
    | None => results
    end in
  let results :=
    if TableConfig.run_drift_check config then
      let drift_config :=
        match TableConfig.drift config with
        | Some drift => drift
        | None =>
            SchemaDriftConfig.mk
              match baseline with
              | Some baseline =>
                  (map_to_list (Baseline.schema baseline)).*1
              | None => []
              end
        end in
      results ++ check_schema_drift stats drift_config baseline
    else results in
  (* 2. completeness checks *)
  let results :=
    if TableConfig.run_null_check config then
      let null_config :=
        match TableConfig.null config with
        | Some null => null
        | None => NullConfig.default
        end in
      results ++ check_null_rate stats null_config
    else results in
  let results :=
    match TableConfig.required config with
    | Some required => results ++ check_required_columns stats required
    | None => results
    end in
  (* 3. uniqueness checks *)
  let results :=
    match TableConfig.unique config with
    | Some unique => results ++ check_unique stats unique
    | None => results
    end in
  (* 4. volume checks *)
  let results :=
    match TableConfig.row_count config with
    | Some row_count => results ++ check_row_count stats row_count
    | None => results
    end in
  let results :=
    if TableConfig.run_volume_check config then
      let volume_config :=
        match TableConfig.volume config with
        | Some volume => volume
        | None => VolumeChangeConfig.default
        end in
      results ++ check_volume_change stats volume_config baseline
    else results in
  (* 5. update the baseline *)
  updated ← _store_save stats;
  mret (RunResult.mk (TableStats.table_name stats)
          (Layer_value (TableStats.layer stats)) results updated None).

End Runner.

(** Running a program against the files of a [BaselineStore]. *)
Fixpoint exec {A} (p : prog A) (fs : store) : result (A * store) :=
  match p with
  | Ret a => Ok (a, fs)
  | Call c k =>
      match c in store_call X return (X -> prog A) -> result (A * store) with
      | call_load table_name => fun k =>
          baseline ← BaselineStore.load fs table_name;
          exec (k baseline) fs
      | call_save stats => fun k =>
          r ← BaselineStore.save fs stats;
          exec (k r.1) r.2
      end k
  end.

(** Running a program against any store at all: [answers] says what each
    call returns, [calls] lists the calls made, in order, and [value] is what
    the program returns in the end. *)
Inductive call : Type :=
  | Load (table_name : string)
  | Save (stats : TableStats.t).

Definition call_of {X} (c : store_call X) : call :=
  match c with
  | call_load table_name => Load table_name
  | call_save stats => Save stats
  end.

Definition answers : Type := forall X, store_call X -> X.

Fixpoint calls {A} (o : answers) (p : prog A) : list call :=
  match p with
  | Ret _ => []
  | Call c k => call_of c :: calls o (k (o _ c))
  end.

Fixpoint value {A} (o : answers) (p : prog A) : A :=
  match p with
  | Ret a => a
  | Call c k => value o (k (o _ c))
  end.

(** The store that answers [baseline] to [load] and [updated] to [save]. *)
Definition answers_of (baseline : option Baseline.t) (updated : bool)
    : answers :=
  fun X c =>
    match c in store_call X return X with
    | call_load _ => baseline
    | call_save _ => updated
    end.

(** ** Records written by [save] *)

(** What [save] writes for [stats] when the run count is [n]. *)
Definition written_record (stats : TableStats.t) (n : Z) : file :=
  Text (JObject (BaselineJson.mk (Some (TableStats.table_name stats))
    (Some (TableStats.row_count stats)) (Some (TableStats.schema stats))
    (Some (TableStats.collected_at stats)) (Some n) (Some GAYA_VERSION))).

(** The baseline [load] reads back from such a record. *)
Definition written_baseline (stats : TableStats.t) (n : Z)
    : Baseline.t :=
  Baseline.mk (TableStats.table_name stats) (TableStats.row_count stats)
    (TableStats.schema stats) (TableStats.collected_at stats) n.

(** ** Test data, after [tests/fixtures.py] *)

Definition make_column (name dtype : string) (null_count distinct_count : Z)
    : ColumnStats.t :=
  ColumnStats.mk name dtype 1000 null_count distinct_count None None [].

Definition email_column : ColumnStats.t :=
  make_column "email" "string" 120 880.

Definition fixture_columns : list ColumnStats.t :=
  [ make_column "order_id" "int" 0 1000;
    make_column "customer_id" "int" 0 750;
    email_column;
    make_column "status" "string" 0 5 ].

Definition make_stats (row_count : Z) (columns : list ColumnStats.t)
    : TableStats.t :=
  TableStats.mk "orders" STAGING row_count columns
    (list_to_map (List.map (fun c => (ColumnStats.name c, ColumnStats.dtype c))
                    columns))
    "2026-02-19T10:00:00+00:00".

Definition stats_1000 : TableStats.t := make_stats 1000 fixture_columns.

Definition stats_1200 : TableStats.t := make_stats 1200 fixture_columns.

(** A directory holding the baseline of a first run over [stats_1000]. *)
Definition store_1000 : store :=
  {[ "orders.json" := written_record stats_1000 1 ]}.

(** A directory whose file for [orders] holds the JSON text [[]]: valid
    JSON, but not an object. *)
Definition store_non_object : store := {[ "orders.json" := Text JOther ]}.

(** The fixture table checked for the nulls of a column it does not have. *)
Definition null_config_ghost : NullConfig.t :=
  NullConfig.mk (Some ["ghost_col"]) (10 # 100) (25 # 100).

(** A result [r] lists the names of a set [s], sorted: its message has the
    [repr] of a list that is sorted, without repetition, and holds exactly
    the names of [s]. *)
Definition lists_sorted (r : CheckResult.t) (s : gset string) : Prop :=
  exists names : list string,
    Repr names ∈ CheckResult.message r
    /\ Sorted str_le names
    /\ NoDup names
    /\ forall x, x ∈ names <-> x ∈ s.

(** A table of one column, as the tests of the checks build them. *)
Definition one_column (null_count distinct_count : Z) : TableStats.t :=
  make_stats 1000 [make_column "order_id" "int" null_count distinct_count].

(** Columns [a], [b], [c] now, against a baseline that had [a] and [d]. *)
Definition stats_abc : TableStats.t :=
  make_stats 1000
    [make_column "a" "int" 0 1000; make_column "b" "int" 0 1000;
     make_column "c" "int" 0 1000].

Definition baseline_ad : Baseline.t :=
  Baseline.mk "orders" 1000 {[ "a" := "int"; "d" := "int" ]}
    "2026-02-18T10:00:00+00:00" 1.

Definition make_config : TableConfig.t :=
  TableConfig.mk "orders" "staging" "main_db"
    (Some (NullConfig.mk None (10 # 100) (25 # 100))) None None None
    (Some (VolumeChangeConfig.mk (20 # 100) (40 # 100))) None None
    true true true.

(** ** gaya.baseline.store: [exists] and [delete] *)

Module BaselineStoreAdmin.

Definition exists_ (self : store) (table_name : string) : bool :=
  match self !! BaselineStore._path table_name with
  | Some _ => true
  | None => false
  end.

(** [delete] returns its boolean together with the directory it leaves. *)
Definition delete (self : store) (table_name : string) : bool * store :=
  let path := BaselineStore._path table_name in
  match self !! path with
  | Some _ => (true, base.delete path self)
  | None => (false, self)
  end.

End BaselineStoreAdmin.

(** ** gaya.runner: the properties of [RunResult] *)

#[global] Instance Status_eq_dec : EqDecision Status.
Proof. solve_decision. Defined.

(** Truth value of an [Optional[str]]: [None] and the empty string are
    falsy. *)
Definition truthy (o : option string) : bool :=
  match o with
  | Some (String _ _) => true
  | _ => false
  end.

Module RunResultP.

Definition passed (self : RunResult.t) : list CheckResult.t :=
  List.filter (fun r => bool_decide (CheckResult.status r = PASS))
    (RunResult.results self).

Definition warnings (self : RunResult.t) : list CheckResult.t :=
  List.filter (fun r => bool_decide (CheckResult.status r = WARN))
    (RunResult.results self).

Definition failures (self : RunResult.t) : list CheckResult.t :=
  List.filter (fun r => bool_decide (CheckResult.status r = FAIL))
    (RunResult.results self).

Definition has_failures (self : RunResult.t) : bool :=
  match failures self with [] => false | _ :: _ => true end.

Definition has_warnings (self : RunResult.t) : bool :=
  match warnings self with [] => false | _ :: _ => true end.

Definition overall_status (self : RunResult.t) : Status :=
  match failures self with
  | _ :: _ => FAIL
  | [] =>
      match warnings self with
      | _ :: _ => WARN
      | [] => PASS
      end
  end.

End RunResultP.

(** ** gaya.output.reporter *)

(** [sum(...)] over ints. *)
Definition py_sum (l : list Z) : Z := fold_left Z.add l 0.

(** [len(l)] of a list, as a Python int. *)
Definition llen {A} (l : list A) : Z := Z.of_nat (length l).

Module RunSummary.

Record t : Type := mk {
  results : list RunResult.t;
  duration_secs : Q
}.

Definition total_checks (self : t) : Z :=
  py_sum (List.map (fun r => llen (RunResult.results r)) (results self)).

Definition total_passed (self : t) : Z :=
  py_sum (List.map (fun r => llen (RunResultP.passed r)) (results self)).

Definition total_warnings (self : t) : Z :=
  py_sum (List.map (fun r => llen (RunResultP.warnings r)) (results self)).

Definition total_failures (self : t) : Z :=
  py_sum (List.map (fun r => llen (RunResultP.failures r)) (results self)).

Definition exit_code (self : t) : Z :=
  if existsb (fun r => truthy (RunResult.error r)) (results self) then 3
  else if existsb RunResultP.has_failures (results self) then 2
  else if existsb RunResultP.has_warnings (results self) then 1
  else 0.

Definition has_failures (self : t) : bool := total_failures self >? 0.

Definition has_warnings (self : t) : bool := total_warnings self >? 0.

End RunSummary.

Module Reporter.

(** [f"[{r.column}] " if r.column else ""], spliced into the line that
    interpolates it. *)
Definition col (column : option string) : fstring :=
  match column with
  | Some (String _ _ as c) => [Lit "["; Str c; Lit "] "]
  | _ => []
  end.

(** The lines [_print_quiet] writes, in order. *)
Definition _print_quiet (summary : RunSummary.t) : list fstring :=
  List.flat_map
    (fun result =>
       match RunResult.error result with
       | Some (String _ _ as error) =>
           [[Lit "ERROR "; Str (RunResult.table result); Lit " "; Str error]]
       | _ =>
           List.map
             (fun r =>
                [Lit "FAIL "; Str (RunResult.layer result); Lit ".";
                 Str (RunResult.table result); Lit " "]
                ++ col (CheckResult.column r) ++ [Str (CheckResult.check r)])
             (RunResultP.failures result)
           ++
           List.map
             (fun r =>
                [Lit "WARN "; Str (RunResult.layer result); Lit ".";
                 Str (RunResult.table result); Lit " "]
                ++ col (CheckResult.column r) ++ [Str (CheckResult.check r)])
             (RunResultP.warnings result)
       end)
    (RunSummary.results summary).

End Reporter.

(** ** gaya.output.reporter: human mode *)

(** One call of [_out]: its text, or the line [f"  Finished in {d:.1f}s"]
    for a duration [d]. *)
Inductive out : Type :=
  | Out (text : fstring)
  | OutFinished (duration_secs : Q).

(** [s * n] *)
Fixpoint str_mul (s : string) (n : nat) : string :=
  match n with
  | O => EmptyString
  | S n => String.append s (str_mul s n)
  end.

(** [sep.join(parts)] for parts that are f-strings themselves. *)
Fixpoint fjoin (sep : string) (parts : list fstring) : fstring :=
  match parts with
  | [] => []
  | [part] => part
  | part :: parts => part ++ Lit sep :: fjoin sep parts
  end.

Module ReporterHuman.

Definition _STATUS_ICON (status : Status) : string :=
  match status with
  | PASS => "✔"
  | WARN => "⚠"
  | FAIL => "✖"
  end.

Definition _line : out := Out [Str (String.append "  " (str_mul "─" 54))].

Definition _print_table_block (result : RunResult.t) : list out :=
  let icon := if RunResultP.has_failures result then "✖" else "⚠" in
  let status_label :=
    if RunResultP.has_failures result then "FAILED" else "WARN" in
  Out [Lit (String "010" "  "); Str icon; Lit "  ";
       Str (RunResult.layer result); Lit "."; Str (RunResult.table result);
       Lit "  "; Str status_label]
  :: match RunResult.error result with
     | Some (String _ _ as error) => [Out [Lit "     Error: "; Str error]]
     | _ =>
         List.flat_map
           (fun check_result =>
              let col_str :=
                match CheckResult.column check_result with
                | Some (String _ _ as column) =>
                    [Lit " ["; Str column; Lit "]"]
                | _ => []
                end in
              let icon := _STATUS_ICON (CheckResult.status check_result) in
              Out ([Lit "     "; Str icon] ++ col_str ++ [Lit "  "]
                   ++ CheckResult.message check_result)
              :: match CheckResult.hint check_result with
                 | Some (String _ _ as hint) =>
                     [Out [Lit "          → "; Str hint]]
                 | _ => []
                 end)
           (RunResultP.failures result ++ RunResultP.warnings result)
     end.

Definition _print_human (summary : RunSummary.t) : list out :=
  let issues :=
    List.filter
      (fun r => RunResultP.has_failures r || RunResultP.has_warnings r)
      (RunSummary.results summary) in
  let clean :=
    List.filter
      (fun r => negb (RunResultP.has_failures r)
                && negb (RunResultP.has_warnings r))
      (RunSummary.results summary) in
  [_line]
  ++ List.flat_map _print_table_block issues
  ++ [_line]
  ++ (if (RunSummary.total_failures summary =? 0)
         && (RunSummary.total_warnings summary =? 0)
      then
        [Out [Lit "  All checks passed (";
              Num (RunSummary.total_checks summary); Lit " checks across ";
              Num (llen (RunSummary.results summary)); Lit " table(s))"]]
      else
        let parts : list fstring := [] in
        let parts :=
          if negb (RunSummary.total_failures summary =? 0)
          then parts ++ [[Num (RunSummary.total_failures summary);
                          Lit " failed"]]
          else parts in
        let parts :=
          if negb (RunSummary.total_warnings summary =? 0)
          then parts ++ [[Num (RunSummary.total_warnings summary);
                          Lit " warned"]]
          else parts in
        let parts :=
          if negb (RunSummary.total_passed summary =? 0)
          then parts ++ [[Num (RunSummary.total_passed summary);
                          Lit " passed"]]
          else parts in
        [Out ([Lit "  "; Num (llen (RunSummary.results summary));
               Lit " table(s) · "] ++ fjoin " · " parts)])
  ++ [OutFinished (RunSummary.duration_secs summary)]
  ++ [_line]
  ++ match clean with
     | [] => []
     | _ :: _ =>
         List.map
           (fun r =>
              Out [Lit "  ✔  "; Str (RunResult.layer r); Lit ".";
                   Str (RunResult.table r); Lit "  (";
                   Num (llen (RunResult.results r)); Lit " checks passed)"])
           clean
         ++ [_line]
     end.

End ReporterHuman.

(** ** gaya.cli *)

(** What building the adapter and calling [collect] came to: an exception,
    kept as its text, or the statistics. *)
Inductive collected : Type :=
  | CollectFailed (message : string)
  | Collected (stats : TableStats.t).

(** Running a program against a [_DryRunStore]: [load] is inherited from
    [BaselineStore], [save] returns [False] and writes nothing. *)
Fixpoint exec_dry_run {A} (p : prog A) (fs : store) : result (A * store) :=
  match p with
  | Ret a => Ok (a, fs)
  | Call c k =>
      match c in store_call X return (X -> prog A) -> result (A * store) with
      | call_load table_name => fun k =>
          baseline ← BaselineStore.load fs table_name;
          exec_dry_run (k baseline) fs
      | call_save _ => fun k => exec_dry_run (k false) fs
      end k
  end.

Definition _run_table (config : TableConfig.t) (outcome : collected)
    (dry_run : bool) (fs : store) : result (RunResult.t * store) :=
  match outcome with
  | CollectFailed message =>
      Ok (RunResult.mk (TableConfig.table config) (TableConfig.layer config)
            [] false (Some message), fs)
  | Collected stats =>
      if dry_run then exec_dry_run (Runner.run stats config) fs
      else exec (Runner.run stats config) fs
  end.

(** The loop of [_cmd_run] over the table configurations, each with what
    its collection came to. *)
Fixpoint _cmd_run_results (dry_run : bool)
    (tables : list (TableConfig.t * collected)) (fs : store)
    : result (list RunResult.t * store) :=
  match tables with
  | [] => Ok ([], fs)
  | (table_config, outcome) :: tables =>
      r ← _run_table table_config outcome dry_run fs;
      rs ← _cmd_run_results dry_run tables r.2;
      mret (r.1 :: rs.1, rs.2)
  end.

(** ** gaya.config.loader *)

(** The mapping of one table in [gaya.yml], read as far as the keys
    [_parse_table] asks for: each key is present with a value of the type the
    configuration classes declare, or absent. *)
Module TableYaml.
Record t : Type := mk {
  layer : option string;
  source : option string;
  not_null : option (list string);
  primary_key : option string;
  min_rows : option Z;
  max_rows : option Z
}.
End TableYaml.

(** The [defaults] mapping of [gaya.yml]: percentages, present or absent. *)
Module DefaultsYaml.
Record t : Type := mk {
  null_warn_pct : option Q;
  null_fail_pct : option Q;
  volume_warn_pct : option Q;
  volume_fail_pct : option Q
}.
End DefaultsYaml.

(** [d.get(key, default)] on a mapping read as a record of options. *)
Definition get_default {A} (value : option A) (default : A) : A :=
  match value with
  | Some v => v
  | None => default
  end.

(** Truth value of an [Optional[int]]: [None] and 0 are falsy. *)
Definition truthy_int (o : option Z) : bool :=
  match o with
  | Some n => negb (n =? 0)
  | None => false
  end.

Module Loader.

Definition _parse_table (name : string) (cfg : TableYaml.t)
    (defaults : DefaultsYaml.t) : TableConfig.t :=
  let layer := get_default (TableYaml.layer cfg) "staging" in
  let source := get_default (TableYaml.source cfg) "default" in
  let null_config :=
    NullConfig.mk None
      (get_default (DefaultsYaml.null_warn_pct defaults) 10 / 100)%Q
      (get_default (DefaultsYaml.null_fail_pct defaults) 25 / 100)%Q in
  let required_cols := get_default (TableYaml.not_null cfg) [] in
  let required :=
    match required_cols with
    | _ :: _ => Some (RequiredConfig.mk required_cols)
    | [] => None
    end in
  let pk := TableYaml.primary_key cfg in
  let unique :=
    match pk with
    | Some (String _ _ as pk) => Some (UniqueConfig.mk [pk])
    | _ => None
    end in
  let min_rows := TableYaml.min_rows cfg in
  let max_rows := TableYaml.max_rows cfg in
  let row_count :=
    if truthy_int min_rows || truthy_int max_rows
    then Some (RowCountConfig.mk min_rows max_rows)
    else None in
  let volume :=
    VolumeChangeConfig.mk
      (get_default (DefaultsYaml.volume_warn_pct defaults) 20 / 100)%Q
      (get_default (DefaultsYaml.volume_fail_pct defaults) 40 / 100)%Q in
  TableConfig.mk name layer source (Some null_config) required unique
    row_count (Some volume) None None true true true.

End Loader.

(** ** gaya.adapters.postgres *)

Module Postgres.

Definition _PG_TYPE_MAP : gmap string string :=
  list_to_map
    [ ("integer", "int"); ("int", "int"); ("int4", "int"); ("int8", "int");
      ("bigint", "int"); ("smallint", "int"); ("numeric", "numeric");
      ("decimal", "numeric"); ("real", "float");
      ("double precision", "float"); ("float4", "float");
      ("float8", "float");
      ("text", "string"); ("varchar", "string");
      ("character varying", "string"); ("char", "string");
      ("bpchar", "string");
      ("boolean", "boolean"); ("bool", "boolean");
      ("date", "date"); ("timestamp", "timestamp");
      ("timestamp without time zone", "timestamp");
      ("timestamp with time zone", "timestamp");
      ("timestamptz", "timestamp");
      ("json", "json"); ("jsonb", "json");
      ("uuid", "string") ].

Definition _normalize_pg_type (pg_type : string) : string :=
  get_default (_PG_TYPE_MAP !! lower pg_type) (lower pg_type).

Definition _supports_minmax (pg_type : string) : bool :=
  let normalized := _normalize_pg_type pg_type in
  bool_decide (normalized ∈ ["int"; "numeric"; "float"; "date"; "timestamp"]).

(** [table.split(".", 1)]: the text before the first dot and, when there is
    a dot, the text after it. *)
Fixpoint split_dot (table : string) : string * option string :=
  match table with
  | EmptyString => (EmptyString, None)
  | String c rest =>
      if Ascii.eqb c "." then (EmptyString, Some rest)
      else let '(head, tail) := split_dot rest in (String c head, tail)
  end.

Definition _parse_table (table : string) : string * string :=
  match split_dot table with
  | (schema, Some name) => (schema, name)
  | (name, None) => ("public", name)
  end.

(** The aggregates of one column in the dict [_fetch_agg_stats] returns. *)
Module ColumnAgg.
Record t : Type := mk {
  null_count : option Z;
  distinct_count : option Z;
  min : option any;
  max : option any
}.
Definition empty : t := mk None None None None.
End ColumnAgg.

(** The dict [_fetch_agg_stats] returns: the row count under [_row_count]
    and the aggregates of each column under its name (for columns that are
    not themselves named [_row_count]). *)
Module AggStats.
Record t : Type := mk {
  _row_count : Z;
  by_column : gmap string ColumnAgg.t
}.
End AggStats.

(** [Layer(layer)]: the member with that value, if any. *)
Definition Layer_of_value (layer : string) : option Layer :=
  if String.eqb layer "upstream" then Some UPSTREAM
  else if String.eqb layer "staging" then Some STAGING
  else if String.eqb layer "downstream" then Some DOWNSTREAM
  else None.

(** The state of the loop of [_build_table_stats] after the rows of
    [column_meta], each a column name with its data type: the columns
    appended so far and the schema assigned so far. *)
Fixpoint build_columns (row_count : Z) (agg_stats : AggStats.t)
    (column_meta : list (string * string))
    (columns : list ColumnStats.t) (schema : gmap string string)
    : list ColumnStats.t * gmap string string :=
  match column_meta with
  | [] => (columns, schema)
  | (col_name, pg_type) :: column_meta =>
      let norm_type := _normalize_pg_type pg_type in
      let col_stats :=
        get_default (AggStats.by_column agg_stats !! col_name)
          ColumnAgg.empty in
      build_columns row_count agg_stats column_meta
        (columns ++
           [ColumnStats.mk col_name norm_type row_count
              (get_default (ColumnAgg.null_count col_stats) 0)
              (get_default (ColumnAgg.distinct_count col_stats) 0)
              (ColumnAgg.min col_stats) (ColumnAgg.max col_stats) []])
        (<[col_name := norm_type]> schema)
  end.

(** [_build_table_stats]; [now] is the timestamp it takes, and [None] stands
    for the [ValueError] of [Layer(layer)]. *)
Definition _build_table_stats (table layer : string)
    (column_meta : list (string * string)) (agg_stats : AggStats.t)
    (now : string) : option TableStats.t :=
  let row_count := AggStats._row_count agg_stats in
  let '(columns, schema) := build_columns row_count agg_stats column_meta [] ∅ in
  layer ← Layer_of_value layer;
  Some (TableStats.mk table layer row_count columns schema now).

End Postgres.

(** ** Auxiliary notions for the further properties *)

(** Whether a character occurs in a string. *)
Fixpoint has_char (c : ascii) (s : string) : bool :=
  match s with
  | EmptyString => false
  | String c' s' => Ascii.eqb c' c || has_char c s'
  end.

(** Saving the statistics of successive runs, one after the other; the
    booleans returned, in order, and the directory left. *)
Fixpoint save_all (self : store) (runs : list TableStats.t)
    : result (list bool * store) :=
  match runs with
  | [] => Ok ([], self)
  | stats :: runs =>
      r ← BaselineStore.save self stats;
      rs ← save_all r.2 runs;
      mret (r.1 :: rs.1, rs.2)
  end.

(** The run count of what [load] answered, 0 when it answered [None]. *)
Definition run_count_of (existing : option Baseline.t) : Z :=
  match existing with
  | Some b => Baseline.run_count b
  | None => 0
  end.

(** Column metadata and aggregates as the two queries of the adapter return
    them for a table of two columns. *)
Definition pg_column_meta : list (string * string) :=
  [("order_id", "integer"); ("email", "character varying")].

Definition pg_agg_stats : Postgres.AggStats.t :=
  Postgres.AggStats.mk 1000
    {[ "order_id" := Postgres.ColumnAgg.mk (Some 0) (Some 1000)
                       (Some (AnyInt 1)) (Some (AnyInt 1000));
       "email" := Postgres.ColumnAgg.mk (Some 120) (Some 880) None None ]}.

(** The statistics the adapter builds from them. *)
Definition pg_stats : TableStats.t :=
  default (make_stats 0 [])
    (Postgres._build_table_stats "public.orders" "staging" pg_column_meta
       pg_agg_stats "2026-02-19T10:00:00+00:00").

(** * Properties *)

(** ** The baseline store *)

Section Store.

Implicit Types (self : store) (stats : TableStats.t).

Lemma load_written self stats n :
  BaselineStore.load
    (<[BaselineStore._path (TableStats.table_name stats) :=
         written_record stats n]> self)
    (TableStats.table_name stats)
  = Ok (Some (written_baseline stats n)).
Proof.
  unfold BaselineStore.load. rewrite lookup_insert_eq. reflexivity.
Qed.

Lemma has_changed_iff (baseline : Baseline.t) stats :
  BaselineStore._has_changed baseline stats = true <->
  Baseline.row_count baseline <> TableStats.row_count stats
  \/ Baseline.schema baseline <> TableStats.schema stats.
Proof.
  unfold BaselineStore._has_changed.
  rewrite orb_true_iff, !negb_true_iff, Z.eqb_neq, bool_decide_eq_false.
  reflexivity.
Qed.

Lemma has_changed_written stats stats' n :
  TableStats.row_count stats' = TableStats.row_count stats ->
  TableStats.schema stats' = TableStats.schema stats ->
  BaselineStore._has_changed (written_baseline stats n) stats' = false.
Proof.
  intros Hrows Hschema. apply not_true_is_false.
  rewrite has_changed_iff. simpl. intros [H | H]; congruence.
Qed.

(** [save] unfolded once the answer of its [load] is known. *)
Lemma save_unfold self stats existing :
  BaselineStore.load self (TableStats.table_name stats) = Ok existing ->
  BaselineStore.save self stats =
    match existing with
    | Some b =>
        if BaselineStore._has_changed b stats
        then Ok (true,
                 <[BaselineStore._path (TableStats.table_name stats) :=
                     written_record stats (Baseline.run_count b + 1)]> self)
        else Ok (false, self)
    | None =>
        Ok (true,
            <[BaselineStore._path (TableStats.table_name stats) :=
                written_record stats 1]> self)
    end.
Proof.
  intros Hload. unfold BaselineStore.save. rewrite Hload. simpl.
  destruct existing as [b|]; [|reflexivity].
  destruct (BaselineStore._has_changed b stats); reflexivity.
Qed.

End Store.

(** C1. [save] is a conditional write.  Whenever [load] answers for the
    table of [stats] (with [None] or with the stored baseline), [save]
    returns normally; it writes if and only if there is no stored baseline
    or the stored one differs from [stats] in [row_count] or in [schema];
    the record it writes carries the run count of the stored baseline plus
    one, or 1 when there was none, and is what [load] reads back; the
    boolean it returns is [true] exactly when it wrote, and the directory is
    untouched otherwise. *)
Theorem save_conditional_write (self : store) (stats : TableStats.t)
    (existing : option Baseline.t) :
  BaselineStore.load self (TableStats.table_name stats) = Ok existing ->
  exists (written : bool) (self' : store),
    BaselineStore.save self stats = Ok (written, self')
    /\ (written = true <->
        existing = None
        \/ exists b, existing = Some b
           /\ (Baseline.row_count b <> TableStats.row_count stats
               \/ Baseline.schema b <> TableStats.schema stats))
    /\ (written = true ->
        let run_count :=
          match existing with
          | Some b => Baseline.run_count b + 1
          | None => 1
          end in
        self' = <[BaselineStore._path (TableStats.table_name stats) :=
                    written_record stats run_count]> self
        /\ BaselineStore.load self' (TableStats.table_name stats)
           = Ok (Some (Baseline.mk (TableStats.table_name stats)
                         (TableStats.row_count stats)
                         (TableStats.schema stats)
                         (TableStats.collected_at stats) run_count)))
    /\ (written = false -> self' = self).
Proof.
  intros Hload. rewrite (save_unfold _ _ _ Hload).
  destruct existing as [b|].
  - destruct (BaselineStore._has_changed b stats) eqn:Hchanged.
    + eexists true, _. split; [reflexivity|].
      apply has_changed_iff in Hchanged.
      repeat split; try discriminate; eauto using load_written.
    + eexists false, _. split; [reflexivity|].
      repeat split; try discriminate; try reflexivity.
      intros [Hnone | (b' & Hsome & Hdiff)]; [discriminate|].
      injection Hsome as <-. apply has_changed_iff in Hdiff. congruence.
  - eexists true, _. split; [reflexivity|].
    repeat split; try discriminate; eauto using load_written.
Qed.

(** A stored baseline of 1000 rows and a run that counts 1200: the record is
    rewritten with run count 2. *)
Lemma save_conditional_write_witness :
  exists (written : bool) (self' : store),
    BaselineStore.save store_1000 stats_1200 = Ok (written, self')
    /\ (written = true <->
        Some (written_baseline stats_1000 1) = None
        \/ exists b, Some (written_baseline stats_1000 1) = Some b
           /\ (Baseline.row_count b <> TableStats.row_count stats_1200
               \/ Baseline.schema b <> TableStats.schema stats_1200))
    /\ (written = true ->
        self' = <[BaselineStore._path (TableStats.table_name stats_1200) :=
                    written_record stats_1200 2]> store_1000
        /\ BaselineStore.load self' (TableStats.table_name stats_1200)
           = Ok (Some (Baseline.mk (TableStats.table_name stats_1200)
                         (TableStats.row_count stats_1200)
                         (TableStats.schema stats_1200)
                         (TableStats.collected_at stats_1200) 2)))
    /\ (written = false -> self' = store_1000).
Proof.
  apply (save_conditional_write store_1000 stats_1200
           (Some (written_baseline stats_1000 1))).
  reflexivity.
Defined.

(** C8. [save] is idempotent under no change.  After any [save stats] that
    returns, a second [save] for the same table with the same [row_count]
    and [schema] returns [False] and leaves the directory, hence the stored
    baseline and its run count, as the first call left it; when no baseline
    existed before, the first call returns [True] and stores run count 1. *)
Theorem save_idempotent (self : store) (stats stats' : TableStats.t)
    (existing : option Baseline.t) :
  BaselineStore.load self (TableStats.table_name stats) = Ok existing ->
  TableStats.table_name stats' = TableStats.table_name stats ->
  TableStats.row_count stats' = TableStats.row_count stats ->
  TableStats.schema stats' = TableStats.schema stats ->
  exists (written : bool) (self1 : store),
    BaselineStore.save self stats = Ok (written, self1)
    /\ BaselineStore.save self1 stats' = Ok (false, self1)
    /\ (existing = None ->
        written = true
        /\ exists b,
             BaselineStore.load self1 (TableStats.table_name stats)
             = Ok (Some b)
             /\ Baseline.run_count b = 1).
Proof.
  intros Hload Hname Hrows Hschema.
  rewrite (save_unfold _ _ _ Hload).
  destruct existing as [b|].
  - destruct (BaselineStore._has_changed b stats) eqn:Hchanged.
    + eexists true, _. split; [reflexivity|]. split; [|discriminate].
      erewrite save_unfold; [|rewrite Hname; apply load_written].
      cbv iota. now rewrite has_changed_written.
    + eexists false, _. split; [reflexivity|]. split; [|discriminate].
      erewrite save_unfold; [|rewrite Hname; apply Hload].
      cbv iota.
      assert (BaselineStore._has_changed b stats' = false) as ->;
        [|reflexivity].
      unfold BaselineStore._has_changed in *. now rewrite Hrows, Hschema.
  - eexists true, _. split; [reflexivity|]. split.
    + erewrite save_unfold; [|rewrite Hname; apply load_written].
      cbv iota. now rewrite has_changed_written.
    + intros _. split; [reflexivity|].
      eexists. split; [apply load_written|reflexivity].
Qed.

(** Two saves of the fixture statistics into an empty directory. *)
Lemma save_idempotent_witness :
  exists (written : bool) (self1 : store),
    BaselineStore.save ∅ stats_1000 = Ok (written, self1)
    /\ BaselineStore.save self1 stats_1000 = Ok (false, self1)
    /\ (@None Baseline.t = None ->
        written = true
        /\ exists b,
             BaselineStore.load self1 (TableStats.table_name stats_1000)
             = Ok (Some b)
             /\ Baseline.run_count b = 1).
Proof.
  apply (save_idempotent ∅ stats_1000 stats_1000 None); reflexivity.
Defined.

(** [load] answers [None] for a missing file, for a file that is not JSON
    and for a JSON object that lacks one of the four keys it subscripts. *)
Lemma load_absent (self : store) (table_name : string) :
  self !! BaselineStore._path table_name = None
  \/ self !! BaselineStore._path table_name = Some Garbage
  \/ (exists o, self !! BaselineStore._path table_name = Some (Text (JObject o))
       /\ (BaselineJson.table_name o = None \/ BaselineJson.row_count o = None
           \/ BaselineJson.schema o = None \/ BaselineJson.run_at o = None)) ->
  BaselineStore.load self table_name = Ok None.
Proof.
  unfold BaselineStore.load.
  intros [-> | [-> | (o & -> & Hmissing)]]; try reflexivity.
  destruct o as [tn rc sc ra rn gv]; simpl in *.
  destruct tn, rc, sc, ra; try reflexivity;
    destruct Hmissing as [H | [H | [H | H]]]; discriminate.
Qed.

(** [load] raises exactly on a file holding JSON that is not an object, and
    what it raises is the [TypeError] of the first subscript. *)
Lemma load_raises_iff (self : store) (table_name : string) (e : exn) :
  BaselineStore.load self table_name = Raise e <->
  self !! BaselineStore._path table_name = Some (Text JOther) /\ e = TypeError.
Proof.
  unfold BaselineStore.load.
  destruct (self !! BaselineStore._path table_name) as [[[o|]|]|] eqn:Hfile;
    simpl.
  - destruct o as [[tn|] [rc|] [sc|] [ra|] [rn|] gv]; simpl;
      split; try discriminate; intros [? _]; discriminate.
  - split; [intros [= <-]; auto | intros [_ ->]; reflexivity].
  - split; [discriminate | intros [? _]; discriminate].
  - split; [discriminate | intros [? _]; discriminate].
Qed.

(** After a record that [load] takes for absent, [save] writes a first
    baseline. *)
Lemma save_after_absent (self : store) (stats : TableStats.t) :
  BaselineStore.load self (TableStats.table_name stats) = Ok None ->
  BaselineStore.save self stats
  = Ok (true, <[BaselineStore._path (TableStats.table_name stats) :=
                  written_record stats 1]> self).
Proof. intros Hload. now rewrite (save_unfold _ _ _ Hload). Qed.

(** C7. A stored record that is valid JSON but not an object, here the text
    [[]] in [orders.json], makes [load] raise [TypeError] instead of
    answering [None], and [save] for that table raises with it. *)
Theorem load_non_object_raises :
  BaselineStore.load store_non_object "orders" = Raise TypeError
  /\ BaselineStore.save store_non_object stats_1000 = Raise TypeError.
Proof. split; reflexivity. Qed.

(** ** Null rate *)

(** C9. A configured name that does not resolve yields a FAIL whose message
    says the column does not exist, but whose [column] is the literal
    [unknown], not the configured name. *)
Theorem check_null_rate_missing_column_unknown :
  exists r,
    check_null_rate stats_1000 null_config_ghost = [r]
    /\ CheckResult.status r = FAIL
    /\ CheckResult.message r
       = [Lit "Column specified in null check does not exist in table."]
    /\ CheckResult.column r = Some "unknown"
    /\ CheckResult.column r <> Some "ghost_col".
Proof.
  exists (null_rate_result stats_1000 null_config_ghost None).
  split; [vm_compute; reflexivity|]. simpl.
  repeat split. discriminate.
Qed.

(** With a non-empty configured subset there is one result per configured
    name, in the order given; the result of a name that does not resolve is
    a FAIL carrying the column [unknown]. *)
Lemma check_null_rate_configured (stats : TableStats.t) (config : NullConfig.t)
    (names : list string) :
  NullConfig.columns config = Some names -> names <> [] ->
  check_null_rate stats config
  = List.map (fun name => null_rate_result stats config
                            (TableStats.column stats name)) names
  /\ forall name, TableStats.column stats name = None ->
       CheckResult.status (null_rate_result stats config
                             (TableStats.column stats name)) = FAIL
       /\ CheckResult.column (null_rate_result stats config
                                (TableStats.column stats name))
          = Some "unknown".
Proof.
  intros Hcols Hne. unfold check_null_rate, columns_to_check. rewrite Hcols.
  destruct names as [|n names]; [congruence|].
  split.
  - rewrite List.map_map. reflexivity.
  - intros name ->. split; reflexivity.
Qed.

(** C10. An empty configured subset behaves as no subset: every column of
    the table is checked, one result per column, in the order of the
    columns. *)
Theorem check_null_rate_empty_subset (stats : TableStats.t) (warn fail : Q) :
  check_null_rate stats (NullConfig.mk (Some []) warn fail)
  = check_null_rate stats (NullConfig.mk None warn fail)
  /\ List.map CheckResult.column
       (check_null_rate stats (NullConfig.mk (Some []) warn fail))
     = List.map (fun c => Some (ColumnStats.name c)) (TableStats.columns stats)
  /\ length (check_null_rate stats (NullConfig.mk (Some []) warn fail))
     = length (TableStats.columns stats).
Proof.
  split; [reflexivity|].
  unfold check_null_rate, columns_to_check. simpl.
  rewrite !List.map_map, !length_map. split; [|reflexivity].
  apply List.map_ext. intros c. simpl.
  destruct (Qeq_bool _ _); [reflexivity|].
  destruct (Qge_bool _ fail); [reflexivity|].
  destruct (Qge_bool _ warn); reflexivity.
Qed.

Lemma lookup_map {A B} (f : A -> B) (l : list A) (i : nat) :
  List.map f l !! i = f <$> l !! i.
Proof.
  revert i. induction l as [|a l IH]; intros [|i]; simpl; auto.
Qed.

(** The three-way comparison of a rate against the thresholds, in the order
    the loop tests them. *)
Lemma null_rate_status (stats : TableStats.t) (config : NullConfig.t)
    (col : ColumnStats.t) :
  let pct := ColumnStats.null_pct col in
  let r := null_rate_result stats config (Some col) in
  CheckResult.column r = Some (ColumnStats.name col)
  /\ (pct == 0 -> CheckResult.status r = PASS)%Q
  /\ (~ pct == 0 -> NullConfig.fail_pct config <= pct ->
      CheckResult.status r = FAIL)%Q
  /\ (~ pct == 0 -> pct < NullConfig.fail_pct config ->
      NullConfig.warn_pct config <= pct -> CheckResult.status r = WARN)%Q
  /\ (~ pct == 0 -> pct < NullConfig.fail_pct config ->
      pct < NullConfig.warn_pct config -> CheckResult.status r = PASS)%Q.
Proof.
  intros pct r. subst r. unfold null_rate_result, Qge_bool. fold pct.
  destruct (Qeq_bool pct 0) eqn:Hzero.
  - apply Qeq_bool_iff in Hzero. repeat split; tauto.
  - apply Qeq_bool_neq in Hzero.
    destruct (Qle_bool (NullConfig.fail_pct config) pct) eqn:Hfail.
    + apply Qle_bool_iff in Hfail.
      repeat split; try tauto; intros _ Hlt;
        exfalso; exact (Qlt_not_le _ _ Hlt Hfail).
    + destruct (Qle_bool (NullConfig.warn_pct config) pct) eqn:Hwarn.
      * apply Qle_bool_iff in Hwarn.
        repeat split; try tauto.
        -- intros _ Hge. apply Qle_bool_iff in Hge. congruence.
        -- intros _ _ Hlt. exfalso. exact (Qlt_not_le _ _ Hlt Hwarn).
      * repeat split; try tauto.
        -- intros _ Hge. apply Qle_bool_iff in Hge. congruence.
        -- intros _ _ Hge. apply Qle_bool_iff in Hge. congruence.
Qed.

(** C4. With [fail_pct > warn_pct >= 0], the result of a column that
    resolves is PASS when its null rate is exactly 0, whatever the
    thresholds; FAIL when the rate is at least [fail_pct]; WARN when it is
    not 0, at least [warn_pct] and below [fail_pct]; PASS when it is below
    [warn_pct].  The FAIL arm does not look at [warn_pct]: the fail test comes
    first.  The rate is [null_count / row_count], and 0 for [row_count = 0]. *)
Theorem check_null_rate_classification (stats : TableStats.t)
    (config : NullConfig.t) (i : nat) (col : ColumnStats.t) :
  (0 <= NullConfig.warn_pct config)%Q ->
  (NullConfig.warn_pct config < NullConfig.fail_pct config)%Q ->
  columns_to_check stats config !! i = Some (Some col) ->
  exists r,
    check_null_rate stats config !! i = Some r
    /\ CheckResult.column r = Some (ColumnStats.name col)
    /\ (ColumnStats.row_count col = 0 -> ColumnStats.null_pct col = 0%Q)
    /\ (ColumnStats.row_count col <> 0 ->
        ColumnStats.null_pct col
        = (inject_Z (ColumnStats.null_count col)
           / inject_Z (ColumnStats.row_count col))%Q)
    /\ (ColumnStats.null_pct col == 0 -> CheckResult.status r = PASS)%Q
    /\ (NullConfig.fail_pct config <= ColumnStats.null_pct col ->
        CheckResult.status r = FAIL)%Q
    /\ (~ ColumnStats.null_pct col == 0 ->
        NullConfig.warn_pct config <= ColumnStats.null_pct col ->
        ColumnStats.null_pct col < NullConfig.fail_pct config ->
        CheckResult.status r = WARN)%Q
    /\ (ColumnStats.null_pct col < NullConfig.warn_pct config ->
        CheckResult.status r = PASS)%Q.
Proof.
  intros Hwarn0 Horder Hcol.
  exists (null_rate_result stats config (Some col)).
  unfold check_null_rate. rewrite lookup_map, Hcol.
  split; [reflexivity|].
  destruct (null_rate_status stats config col)
    as (Hname & Hzero & Hfail & Hwarn & Hpass).
  split; [exact Hname|].
  split; [|split].
  - intros H0. unfold ColumnStats.null_pct. now rewrite H0.
  - intros Hne. unfold ColumnStats.null_pct.
    now destruct (Z.eqb_spec (ColumnStats.row_count col) 0).
  - split; [exact Hzero|]. split; [|split].
    + intros Hge. apply Hfail; [|exact Hge].
      intros Heq. rewrite Heq in Hge.
      apply (Qlt_not_le _ _ Horder). now apply Qle_trans with 0%Q.
    + intros Hnz Hge Hlt. now apply Hwarn.
    + intros Hlt.
      destruct (Qeq_dec (ColumnStats.null_pct col) 0) as [Heq | Hnz];
        [now apply Hzero|].
      apply Hpass; [exact Hnz | | exact Hlt].
      now apply Qlt_trans with (NullConfig.warn_pct config).
Qed.

(** The [email] column of the fixture table: 120 nulls in 1000 rows, against
    the default thresholds 10% and 25%. *)
Lemma check_null_rate_classification_witness :
  exists r,
    check_null_rate stats_1000 NullConfig.default !! 2%nat = Some r
    /\ CheckResult.column r = Some "email"
    /\ (1000 = 0 -> ColumnStats.null_pct email_column = 0%Q)
    /\ (1000 <> 0 ->
        ColumnStats.null_pct email_column
        = (inject_Z 120 / inject_Z 1000)%Q)
    /\ (ColumnStats.null_pct email_column == 0 ->
        CheckResult.status r = PASS)%Q
    /\ ((25 # 100) <= ColumnStats.null_pct email_column ->
        CheckResult.status r = FAIL)%Q
    /\ (~ ColumnStats.null_pct email_column == 0 ->
        (10 # 100) <= ColumnStats.null_pct email_column ->
        ColumnStats.null_pct email_column < (25 # 100) ->
        CheckResult.status r = WARN)%Q
    /\ (ColumnStats.null_pct email_column < (10 # 100) ->
        CheckResult.status r = PASS)%Q.
Proof.
  apply (check_null_rate_classification stats_1000 NullConfig.default 2
           email_column).
  - unfold Qle. simpl. lia.
  - unfold Qlt. simpl. lia.
  - reflexivity.
Defined.

(** ** Volume change *)

(** C2. Without a baseline [check_volume_change] returns one PASS, whatever
    the row count.  With a baseline it returns exactly one result, classified
    on [change_pct = |current - previous| / max(previous, 1)]: FAIL from
    [fail_pct] up, WARN from [warn_pct] up and below [fail_pct], PASS
    otherwise; a FAIL or WARN result reports the direction, [increased] for a
    positive delta and [dropped] otherwise. *)
Theorem check_volume_change_classification (stats : TableStats.t)
    (config : VolumeChangeConfig.t) :
  (exists r,
     check_volume_change stats config None = [r]
     /\ CheckResult.status r = PASS)
  /\ forall baseline : Baseline.t,
       let current := TableStats.row_count stats in
       let previous := Baseline.row_count baseline in
       let delta := current - previous in
       let change_pct :=
         (inject_Z (Z.abs delta) / inject_Z (Z.max previous 1))%Q in
       exists r,
         check_volume_change stats config (Some baseline) = [r]
         /\ (VolumeChangeConfig.fail_pct config <= change_pct ->
             CheckResult.status r = FAIL)%Q
         /\ (VolumeChangeConfig.warn_pct config <= change_pct ->
             change_pct < VolumeChangeConfig.fail_pct config ->
             CheckResult.status r = WARN)%Q
         /\ (change_pct < VolumeChangeConfig.warn_pct config ->
             change_pct < VolumeChangeConfig.fail_pct config ->
             CheckResult.status r = PASS)%Q
         /\ (CheckResult.status r <> PASS -> 0 < delta ->
             exists rest,
               CheckResult.message r
               = Lit "Row count " :: Str "increased" :: rest)
         /\ (CheckResult.status r <> PASS -> delta <= 0 ->
             exists rest,
               CheckResult.message r
               = Lit "Row count " :: Str "dropped" :: rest).
Proof.
  split; [eexists; split; reflexivity|].
  intros baseline current previous delta change_pct.
  unfold check_volume_change, Qge_bool.
  change (volume_change_pct (TableStats.row_count stats)
            (Baseline.row_count baseline)) with change_pct.
  change (volume_delta (TableStats.row_count stats)
            (Baseline.row_count baseline)) with delta.
  assert (Hup : 0 < delta -> volume_direction delta = "increased").
  { unfold volume_direction. destruct (Z.gtb_spec delta 0); auto; lia. }
  assert (Hdown : delta <= 0 -> volume_direction delta = "dropped").
  { unfold volume_direction. destruct (Z.gtb_spec delta 0); auto; lia. }
  pose proof (Qle_bool_iff (VolumeChangeConfig.fail_pct config) change_pct)
    as Hfail.
  pose proof (Qle_bool_iff (VolumeChangeConfig.warn_pct config) change_pct)
    as Hwarn.
  destruct (Qle_bool (VolumeChangeConfig.fail_pct config) change_pct);
    [|destruct (Qle_bool (VolumeChangeConfig.warn_pct config) change_pct)];
    (eexists; split; [reflexivity|]); simpl;
    (split; [|split; [|split; [|split]]]);
    first
      [ intros; reflexivity
      | intros Hge; apply Hfail in Hge; discriminate
      | intros Hge; apply Hwarn in Hge; discriminate
      | intros Hlt; exfalso; apply (Qlt_not_le _ _ Hlt); tauto
      | intros _ Hlt; exfalso; apply (Qlt_not_le _ _ Hlt); tauto
      | intros Hne; exfalso; apply Hne; reflexivity
      | intros _ Hpos; rewrite (Hup Hpos); eexists; reflexivity
      | intros _ Hneg; rewrite (Hdown Hneg); eexists; reflexivity ].
Qed.

(** ** Uniqueness *)

(** C5. One configured column that resolves: exactly one result, FAIL if and
    only if [row_count - distinct_count > 0] for that column, PASS otherwise,
    never WARN.  Two or more configured columns: the column looked up is the
    one named by the configured names joined with [|] in the order given; no
    such column gives one FAIL; otherwise its [row_count] and
    [distinct_count] are put through the same formula. *)
Theorem check_unique_classification (stats : TableStats.t)
    (config : UniqueConfig.t) :
  (forall col_name col,
     UniqueConfig.columns config = [col_name] ->
     TableStats.column stats col_name = Some col ->
     let duplicates :=
       ColumnStats.row_count col - ColumnStats.distinct_count col in
     exists r,
       check_unique stats config = [r]
       /\ CheckResult.column r = Some col_name
       /\ (CheckResult.status r = FAIL <-> duplicates > 0)
       /\ (CheckResult.status r = PASS <-> ~ duplicates > 0)
       /\ CheckResult.status r <> WARN)
  /\ ((2 <= length (UniqueConfig.columns config))%nat ->
      let composite_name := join "|" (UniqueConfig.columns config) in
      exists r,
        check_unique stats config = [r]
        /\ CheckResult.column r = Some composite_name
        /\ match TableStats.column stats composite_name with
           | None => CheckResult.status r = FAIL
           | Some col =>
               let duplicates :=
                 ColumnStats.row_count col - ColumnStats.distinct_count col in
               (CheckResult.status r = FAIL <-> duplicates > 0)
               /\ (CheckResult.status r = PASS <-> ~ duplicates > 0)
               /\ CheckResult.status r <> WARN
           end).
Proof.
  split.
  - intros col_name col Hcols Hcol duplicates.
    unfold check_unique. rewrite Hcols, Hcol. fold duplicates.
    destruct (duplicates >? 0) eqn:Hdup; (eexists; split; [reflexivity|]);
      (split; [reflexivity|]); simpl;
      pose proof (Zgt_is_gt_bool duplicates 0) as Hgt;
      repeat split; try discriminate; try tauto; intros;
      try (apply Hgt; assumption);
      try (rewrite Hdup in Hgt; destruct Hgt as [Hgt _]; intuition discriminate).
  - intros Hlen composite_name.
    unfold check_unique. 
    destruct (UniqueConfig.columns config) as [|c1 [|c2 columns]] eqn:Hcols;
      [simpl in Hlen; lia | simpl in Hlen; lia |].
    fold composite_name.
    destruct (TableStats.column stats composite_name) as [col|].
    + set (duplicates :=
             ColumnStats.row_count col - ColumnStats.distinct_count col).
      destruct (duplicates >? 0) eqn:Hdup; (eexists; split; [reflexivity|]);
        (split; [reflexivity|]); simpl;
        pose proof (Zgt_is_gt_bool duplicates 0) as Hgt;
        repeat split; try discriminate; try tauto; intros;
        try (apply Hgt; assumption);
        try (rewrite Hdup in Hgt; destruct Hgt as [Hgt _];
             intuition discriminate).
    + eexists; split; [reflexivity|]. split; reflexivity.
Qed.

(** ** Schema drift *)

#[local] Instance str_le_total : Total str_le.
Proof. intros a b. apply Stdlib.Strings.String.leb_total. Qed.

Lemma sorted_spec (s : gset string) :
  Sorted str_le (sorted s)
  /\ NoDup (sorted s)
  /\ forall x, x ∈ sorted s <-> x ∈ s.
Proof.
  unfold sorted. split; [apply (Sorted_merge_sort str_le)|].
  split.
  - rewrite merge_sort_Permutation. apply NoDup_elements.
  - intros x. rewrite merge_sort_Permutation. apply elem_of_elements.
Qed.

Lemma lists_sorted_repr (r : CheckResult.t) (s : gset string) :
  Repr (sorted s) ∈ CheckResult.message r -> lists_sorted r s.
Proof.
  intros Hin. exists (sorted s). split; [exact Hin|]. apply sorted_spec.
Qed.

(** C3. Without a baseline [check_schema_drift] returns one PASS.  With a
    baseline: equal sets of names give one PASS; only removed names give one
    FAIL listing them, sorted; only added names give one WARN listing them,
    sorted; removed and added names together give exactly two results, the
    FAIL first and the WARN second. *)
Theorem check_schema_drift_classification (stats : TableStats.t)
    (config : SchemaDriftConfig.t) :
  (exists r,
     check_schema_drift stats config None = [r]
     /\ CheckResult.status r = PASS)
  /\ forall baseline : Baseline.t,
       let current : gset string :=
         list_to_set (TableStats.column_names stats) in
       let previous : gset string := dom (Baseline.schema baseline) in
       let removed := previous ∖ current in
       let added := current ∖ previous in
       (current = previous ->
        exists r,
          check_schema_drift stats config (Some baseline) = [r]
          /\ CheckResult.status r = PASS)
       /\ (removed <> ∅ -> added = ∅ ->
           exists f,
             check_schema_drift stats config (Some baseline) = [f]
             /\ CheckResult.status f = FAIL /\ lists_sorted f removed)
       /\ (removed = ∅ -> added <> ∅ ->
           exists w,
             check_schema_drift stats config (Some baseline) = [w]
             /\ CheckResult.status w = WARN /\ lists_sorted w added)
       /\ (removed <> ∅ -> added <> ∅ ->
           exists f w,
             check_schema_drift stats config (Some baseline) = [f; w]
             /\ CheckResult.status f = FAIL /\ lists_sorted f removed
             /\ CheckResult.status w = WARN /\ lists_sorted w added).
Proof.
  split; [eexists; split; reflexivity|].
  intros baseline current previous removed added.
  unfold check_schema_drift.
  change (current_cols stats) with current.
  change (baseline_cols baseline) with previous.
  fold removed added.
  split; [|split; [|split]].
  - intros Heq.
    assert (added = ∅) as ->
      by (unfold added; rewrite Heq; apply difference_diag_L).
    assert (removed = ∅) as ->
      by (unfold removed; rewrite Heq; apply difference_diag_L).
    rewrite !bool_decide_eq_true_2 by reflexivity.
    eexists; split; reflexivity.
  - intros Hremoved Hadded. rewrite Hadded.
    rewrite (bool_decide_eq_false_2 (removed = ∅)) by exact Hremoved.
    rewrite (bool_decide_eq_true_2 (removed <> ∅)) by exact Hremoved.
    rewrite (bool_decide_eq_false_2 (∅ <> ∅)) by (intros H; now apply H).
    rewrite andb_false_r. simpl.
    eexists; split; [reflexivity|]. split; [reflexivity|].
    apply lists_sorted_repr. simpl. set_solver.
  - intros Hremoved Hadded. rewrite Hremoved.
    rewrite (bool_decide_eq_false_2 (added = ∅)) by exact Hadded.
    rewrite (bool_decide_eq_true_2 (added <> ∅)) by exact Hadded.
    rewrite (bool_decide_eq_false_2 (∅ <> ∅)) by (intros H; now apply H).
    simpl.
    eexists; split; [reflexivity|]. split; [reflexivity|].
    apply lists_sorted_repr. simpl. set_solver.
  - intros Hremoved Hadded.
    rewrite (bool_decide_eq_false_2 (added = ∅)) by exact Hadded.
    rewrite (bool_decide_eq_true_2 (added <> ∅)) by exact Hadded.
    rewrite (bool_decide_eq_true_2 (removed <> ∅)) by exact Hremoved.
    simpl.
    eexists _, _; split; [reflexivity|].
    repeat split; apply lists_sorted_repr; simpl; set_solver.
Qed.

(** ** The runner *)

(** A stage that extends [results] when it is configured. *)
Lemma extend_if {A} (b : bool) (results stage : list A) :
  (if b then results ++ stage else results)
  = results ++ (if b then stage else []).
Proof. destruct b; [reflexivity | now rewrite app_nil_r]. Qed.

Lemma extend_some {A C} (c : option C) (f : C -> list A) (results : list A) :
  match c with Some x => results ++ f x | None => results end
  = results ++ match c with Some x => f x | None => [] end.
Proof. destruct c; [reflexivity | now rewrite app_nil_r]. Qed.

(** C6. Whatever the store answers, a run calls it exactly twice: one [load]
    of the table, first, and one [save] of the statistics, last.  The results
    are the contributions of the stages in the order schema, schema drift,
    null rate, required columns, unique, row count, volume change, a stage
    contributing only when configured or enabled; drift and volume change
    both receive the one baseline that [load] answered; [baseline_updated] is
    what [save] answered.  On a [BaselineStore] the run is that [load]
    followed by that [save] on the directory as the run found it, whatever the
    results are. *)
Theorem run_stage_order (stats : TableStats.t) (config : TableConfig.t) :
  (forall o : answers,
     let baseline := o _ (call_load (TableStats.table_name stats)) in
     let r := value o (Runner.run stats config) in
     calls o (Runner.run stats config)
     = [Load (TableStats.table_name stats); Save stats]
     /\ RunResult.results r
        = match TableConfig.schema config with
          | Some schema => check_schema stats schema
          | None => []
          end
          ++ (if TableConfig.run_drift_check config then
                check_schema_drift stats
                  match TableConfig.drift config with
                  | Some drift => drift
                  | None =>
                      SchemaDriftConfig.mk
                        match baseline with
                        | Some b => (map_to_list (Baseline.schema b)).*1
                        | None => []
                        end
                  end
                  baseline
              else [])
          ++ (if TableConfig.run_null_check config then
                check_null_rate stats
                  match TableConfig.null config with
                  | Some null => null
                  | None => NullConfig.default
                  end
              else [])
          ++ match TableConfig.required config with
             | Some required => check_required_columns stats required
             | None => []
             end
          ++ match TableConfig.unique config with
             | Some unique => check_unique stats unique
             | None => []
             end
          ++ match TableConfig.row_count config with
             | Some row_count => check_row_count stats row_count
             | None => []
             end
          ++ (if TableConfig.run_volume_check config then
                check_volume_change stats
                  match TableConfig.volume config with
                  | Some volume => volume
                  | None => VolumeChangeConfig.default
                  end
                  baseline
              else [])
     /\ RunResult.baseline_updated r
        = o _ (call_save stats)
     /\ RunResult.table r = TableStats.table_name stats
     /\ RunResult.layer r = Layer_value (TableStats.layer stats)
     /\ RunResult.error r = None)
  /\ forall self : store,
       exec (Runner.run stats config) self
       = (baseline ← BaselineStore.load self (TableStats.table_name stats);
          saved ← BaselineStore.save self stats;
          mret (value (answers_of baseline saved.1) (Runner.run stats config),
                saved.2)).
Proof.
  split.
  - intros o baseline r. split; [reflexivity|].
    split; [|repeat split].
    subst r. unfold Runner.run. simpl. fold baseline.
    rewrite !extend_some, !extend_if, <- !app_assoc. reflexivity.
  - intros self. unfold Runner.run. simpl.
    destruct (BaselineStore.load self (TableStats.table_name stats))
      as [baseline|e]; [|reflexivity].
    simpl.
    destruct (BaselineStore.save self stats) as [[updated self']|e];
      reflexivity.
Qed.

(** ** Examples, after the test-suite and the scenarios of the design *)

Example path_dot_notation :
  BaselineStore._path "public.orders" = "public_orders.json".
Proof. reflexivity. Qed.

Example join_composite :
  join "|" ["order_id"; "customer_id"] = "order_id|customer_id".
Proof. reflexivity. Qed.

Example lower_varchar : lower "VARCHAR" = "varchar".
Proof. reflexivity. Qed.

Example sorted_names : sorted {[ "c"; "a"; "b" ]} = ["a"; "b"; "c"].
Proof. vm_compute. reflexivity. Qed.

Example null_rate_statuses :
  List.map CheckResult.status
    (check_null_rate (one_column 0 1000) NullConfig.default) = [PASS]
  /\ List.map CheckResult.status
       (check_null_rate (one_column 50 1000) NullConfig.default) = [PASS]
  /\ List.map CheckResult.status
       (check_null_rate (one_column 120 1000) NullConfig.default) = [WARN]
  /\ List.map CheckResult.status
       (check_null_rate (one_column 280 1000) NullConfig.default) = [FAIL]
  /\ length (check_null_rate stats_1000 NullConfig.default) = 4%nat.
Proof. repeat split; vm_compute; reflexivity. Qed.

Example null_rate_configured_subset :
  List.map CheckResult.column
    (check_null_rate stats_1000
       (NullConfig.mk (Some ["order_id"; "email"]) (10 # 100) (25 # 100)))
  = [Some "order_id"; Some "email"].
Proof. vm_compute. reflexivity. Qed.

Example required_statuses :
  List.map CheckResult.status
    (check_required_columns
       (make_stats 1000 [make_column "order_id" "int" 0 1000;
                         make_column "customer_id" "int" 10 1000])
       (RequiredConfig.mk ["order_id"; "customer_id"; "nonexistent"]))
  = [PASS; FAIL; FAIL].
Proof. vm_compute. reflexivity. Qed.

Example unique_twenty_duplicates :
  exists r rest,
    check_unique (one_column 0 980) (UniqueConfig.mk ["order_id"]) = [r]
    /\ CheckResult.status r = FAIL
    /\ CheckResult.message r
       = Lit "'" :: Str "order_id" :: Lit "' has " :: Commas 20 :: rest.
Proof. eexists _, _. repeat split. Qed.

Example row_count_bounds :
  List.map CheckResult.status
    (check_row_count (make_stats 1000 [])
       (RowCountConfig.mk (Some 500) (Some 2000))) = [PASS]
  /\ List.map CheckResult.status
       (check_row_count (make_stats 400 [])
          (RowCountConfig.mk (Some 500) (Some 2000))) = [FAIL]
  /\ List.map CheckResult.status
       (check_row_count (make_stats 3000 [])
          (RowCountConfig.mk (Some 500) (Some 2000))) = [FAIL]
  /\ List.map CheckResult.status
       (check_row_count (make_stats 3000 []) (RowCountConfig.mk None None))
     = [PASS].
Proof. repeat split; vm_compute; reflexivity. Qed.

Example volume_halved :
  exists r,
    check_volume_change (make_stats 500 []) VolumeChangeConfig.default
      (Some (written_baseline stats_1000 1)) = [r]
    /\ CheckResult.status r = FAIL
    /\ CheckResult.message r
       = [Lit "Row count "; Str "dropped"; Lit " "; Pct (500 / 1000);
          Lit " ("; Commas 1000; Lit " → "; Commas 500; Lit ", "; Str "-";
          Commas 500; Lit " rows)."].
Proof. eexists. repeat split. Qed.

Example schema_case_insensitive :
  List.map CheckResult.status
    (check_schema stats_1000
       (SchemaConfig.mk [("order_id", "INT"); ("email", "int");
                         ("ghost", "int")]))
  = [PASS; FAIL; FAIL].
Proof. vm_compute. reflexivity. Qed.

Example drift_abc_against_ad :
  exists f w rest_f rest_w,
    check_schema_drift stats_abc (SchemaDriftConfig.mk []) (Some baseline_ad)
    = [f; w]
    /\ CheckResult.status f = FAIL
    /\ CheckResult.message f = Num 1 :: rest_f
    /\ Repr ["d"] ∈ CheckResult.message f
    /\ CheckResult.status w = WARN
    /\ CheckResult.message w = Num 2 :: rest_w
    /\ Repr ["b"; "c"] ∈ CheckResult.message w.
Proof.
  eexists _, _, _, _. split; [vm_compute; reflexivity|].
  simpl. repeat split; set_solver.
Qed.

Example save_twice_with_change :
  exists self1 self2,
    BaselineStore.save ∅ stats_1000 = Ok (true, self1)
    /\ BaselineStore.save self1 stats_1200 = Ok (true, self2)
    /\ BaselineStore.load self2 "orders"
       = Ok (Some (written_baseline stats_1200 2)).
Proof. eexists _, _. repeat split. Qed.

Example save_on_schema_change :
  exists self',
    BaselineStore.save
      {[ "orders.json" :=
           written_record
             (TableStats.mk "orders" STAGING 1000 [] {[ "id" := "int" ]}
                "2026-02-19T10:00:00+00:00") 1 ]}
      (TableStats.mk "orders" STAGING 1000 []
         {[ "id" := "int"; "name" := "string" ]}
         "2026-02-19T10:00:00+00:00")
    = Ok (true, self').
Proof. eexists. vm_compute. reflexivity. Qed.

Example load_garbage :
  BaselineStore.load {[ "orders.json" := Garbage ]} "orders" = Ok None.
Proof. reflexivity. Qed.

Example runner_first_and_second_run :
  exists r1 self1 r2,
    exec (Runner.run stats_1000 make_config) ∅ = Ok (r1, self1)
    /\ RunResult.baseline_updated r1 = true
    /\ is_Some (self1 !! "orders.json")
    /\ exec (Runner.run stats_1000 make_config) self1 = Ok (r2, self1)
    /\ RunResult.baseline_updated r2 = false
    /\ List.map CheckResult.check (RunResult.results r2)
       = ["schema_drift"; "null_rate"; "null_rate"; "null_rate"; "null_rate";
          "volume_change"].
Proof.
  eexists _, _, _. split; [reflexivity|]. split; [reflexivity|].
  split; [eexists; reflexivity|]. split; [reflexivity|].
  split; vm_compute; reflexivity.
Qed.

(** * Further properties *)

(** ** The baseline store, continued *)

Lemma save_ok_load (self self' : store) (stats : TableStats.t) (w : bool) :
  BaselineStore.save self stats = Ok (w, self') ->
  exists existing,
    BaselineStore.load self (TableStats.table_name stats) = Ok existing.
Proof.
  unfold BaselineStore.save.
  destruct (BaselineStore.load self (TableStats.table_name stats));
    [eauto | discriminate].
Qed.

(** The two ways a [save] returns. *)
Lemma save_cases (self self' : store) (stats : TableStats.t) (w : bool) :
  BaselineStore.save self stats = Ok (w, self') ->
  exists existing,
    BaselineStore.load self (TableStats.table_name stats) = Ok existing
    /\ ((w = false /\ self' = self
         /\ exists b, existing = Some b
                      /\ BaselineStore._has_changed b stats = false)
        \/ (w = true
            /\ self' = <[BaselineStore._path (TableStats.table_name stats) :=
                           written_record stats (run_count_of existing + 1)]>
                         self)).
Proof.
  intros Hsave. destruct (save_ok_load _ _ _ _ Hsave) as [existing Hload].
  exists existing. split; [exact Hload|].
  rewrite (save_unfold _ _ _ Hload) in Hsave.
  destruct existing as [b|];
    [destruct (BaselineStore._has_changed b stats) eqn:Hchanged|];
    injection Hsave as <- <-.
  - right. split; reflexivity.
  - left. split; [reflexivity|]. split; [reflexivity|].
    exists b. split; [reflexivity | exact Hchanged].
  - right. split; reflexivity.
Qed.

(** X1. After any [save] that returns, written or not, [load] finds a
    baseline for the table, and its row count and schema are those of the
    statistics saved. *)
Theorem save_then_load (self self' : store) (stats : TableStats.t)
    (written : bool) :
  BaselineStore.save self stats = Ok (written, self') ->
  exists b,
    BaselineStore.load self' (TableStats.table_name stats) = Ok (Some b)
    /\ Baseline.row_count b = TableStats.row_count stats
    /\ Baseline.schema b = TableStats.schema stats.
Proof.
  intros Hsave.
  destruct (save_cases _ _ _ _ Hsave)
    as (existing & Hload & [(_ & -> & b & -> & Hsame) | (_ & ->)]).
  - exists b. split; [exact Hload|].
    apply not_true_iff_false in Hsame. rewrite has_changed_iff in Hsame.
    split.
    + destruct (Z.eq_dec (Baseline.row_count b) (TableStats.row_count stats));
        tauto.
    + destruct (decide (Baseline.schema b = TableStats.schema stats)); tauto.
  - eexists. split; [apply load_written|]. split; reflexivity.
Qed.

Lemma save_then_load_witness :
  exists b,
    BaselineStore.load
      (<[BaselineStore._path (TableStats.table_name stats_1200) :=
           written_record stats_1200 2]> store_1000)
      (TableStats.table_name stats_1200) = Ok (Some b)
    /\ Baseline.row_count b = TableStats.row_count stats_1200
    /\ Baseline.schema b = TableStats.schema stats_1200.
Proof.
  apply (save_then_load store_1000 _ stats_1200 true). reflexivity.
Defined.

(** [save] adds no failure of its own: it raises exactly when the file
    of the table holds JSON that is not an object, and then with the
    [TypeError] of [load]. *)
Theorem save_raises_iff (self : store) (stats : TableStats.t) (e : exn) :
  BaselineStore.save self stats = Raise e <->
  self !! BaselineStore._path (TableStats.table_name stats)
  = Some (Text JOther) /\ e = TypeError.
Proof.
  rewrite <- load_raises_iff. unfold BaselineStore.save.
  destruct (BaselineStore.load self (TableStats.table_name stats))
    as [existing|e']; simpl.
  - split; [|discriminate].
    destruct existing as [b|]; [|discriminate].
    destruct (BaselineStore._has_changed b stats); discriminate.
  - split; intros [= ->]; reflexivity.
Qed.

(** X2. [save] touches one file only: what [load] answers for a table kept
    in another file is what it answered before. *)
Theorem save_other_table (self self' : store) (stats : TableStats.t)
    (written : bool) (other : string) :
  BaselineStore.save self stats = Ok (written, self') ->
  BaselineStore._path other
  <> BaselineStore._path (TableStats.table_name stats) ->
  BaselineStore.load self' other = BaselineStore.load self other.
Proof.
  intros Hsave Hother.
  destruct (save_ok_load _ _ _ _ Hsave) as [existing Hload].
  rewrite (save_unfold _ _ _ Hload) in Hsave.
  assert (Hframe : forall f,
    BaselineStore.load
      (<[BaselineStore._path (TableStats.table_name stats) := f]> self) other
    = BaselineStore.load self other).
  { intros f. unfold BaselineStore.load.
    rewrite lookup_insert_ne by congruence. reflexivity. }
  destruct existing as [b|];
    [destruct (BaselineStore._has_changed b stats)|];
    injection Hsave as <- <-; auto.
Qed.

Lemma save_other_table_witness :
  BaselineStore.load
    (<[BaselineStore._path (TableStats.table_name stats_1200) :=
         written_record stats_1200 2]> store_1000)
    "customers"
  = BaselineStore.load store_1000 "customers".
Proof.
  apply (save_other_table store_1000 _ stats_1200 true "customers");
    [reflexivity | discriminate].
Defined.

(** The sanitised name of a table, as [_path] computes it. *)
Lemma replace_absent (old new : ascii) (s : string) :
  has_char old s = false -> replace old new s = s.
Proof.
  induction s as [|c s IH]; simpl; [reflexivity|].
  intros H. apply orb_false_iff in H as [Hc Hs].
  rewrite Hc, IH by exact Hs. reflexivity.
Qed.

Lemma has_char_replace (old new c : ascii) (s : string) :
  c <> new -> has_char c s = false -> has_char c (replace old new s) = false.
Proof.
  intros Hnew. induction s as [|c' s IH]; simpl; [reflexivity|].
  intros H. apply orb_false_iff in H as [Hc Hs].
  rewrite IH by exact Hs. rewrite orb_false_r.
  destruct (Ascii.eqb c' old); [|exact Hc].
  apply Ascii.eqb_neq. congruence.
Qed.

Lemma has_char_replaced (old new : ascii) (s : string) :
  old <> new -> has_char old (replace old new s) = false.
Proof.
  intros Hne. induction s as [|c s IH]; simpl; [reflexivity|].
  rewrite IH, orb_false_r.
  destruct (Ascii.eqb_spec c old) as [->|Hc]; apply Ascii.eqb_neq; congruence.
Qed.

Lemma sanitised_no_dot (table_name : string) :
  has_char "." (replace "/" "_" (replace "." "_" table_name)) = false.
Proof.
  apply has_char_replace; [discriminate|].
  apply has_char_replaced. discriminate.
Qed.

Lemma append_json_inj (s1 s2 : string) :
  has_char "." s1 = false -> has_char "." s2 = false ->
  String.append s1 ".json" = String.append s2 ".json" -> s1 = s2.
Proof.
  revert s2. induction s1 as [|c1 s1 IH]; intros [|c2 s2]; simpl;
    intros H1 H2 Heq.
  - reflexivity.
  - injection Heq as <- _. discriminate.
  - injection Heq as -> _. discriminate.
  - injection Heq as -> Heq.
    apply orb_false_iff in H1 as [_ H1]. apply orb_false_iff in H2 as [_ H2].
    f_equal. now apply IH.
Qed.

(** X3. Table names without [.] and [/] never share a baseline file:
    distinct names get distinct files. *)
Theorem path_injective_plain (n1 n2 : string) :
  has_char "." n1 = false -> has_char "/" n1 = false ->
  has_char "." n2 = false -> has_char "/" n2 = false ->
  n1 <> n2 ->
  BaselineStore._path n1 <> BaselineStore._path n2.
Proof.
  intros Hd1 Hs1 Hd2 Hs2 Hne Hpath. apply Hne.
  unfold BaselineStore._path in Hpath.
  apply append_json_inj in Hpath; try apply sanitised_no_dot.
  now rewrite !(replace_absent "."), !(replace_absent "/") in Hpath.
Qed.

Lemma path_injective_plain_witness :
  BaselineStore._path "orders" <> BaselineStore._path "customers".
Proof.
  apply (path_injective_plain "orders" "customers");
    [reflexivity | reflexivity | reflexivity | reflexivity | discriminate].
Defined.

Lemma sanitise_char (c : ascii) :
  let f := fun c : ascii => if Ascii.eqb c "." then "_"%char else c in
  let g := fun c : ascii => if Ascii.eqb c "/" then "_"%char else c in
  g (f (f c)) = g (f c) /\ g (f (g c)) = g (f c).
Proof.
  simpl.
  destruct (Ascii.eqb c ".") eqn:Hdot; destruct (Ascii.eqb c "/") eqn:Hslash;
    simpl; rewrite ?Hdot, ?Hslash; simpl; rewrite ?Hdot, ?Hslash;
    split; reflexivity.
Qed.

Lemma sanitise_again (s : string) :
  replace "/" "_" (replace "." "_" (replace "." "_" s))
  = replace "/" "_" (replace "." "_" s)
  /\ replace "/" "_" (replace "." "_" (replace "/" "_" s))
     = replace "/" "_" (replace "." "_" s).
Proof.
  induction s as [|c s [IHdot IHslash]]; simpl; [split; reflexivity|].
  rewrite IHdot, IHslash.
  destruct (sanitise_char c) as [Hdot Hslash]. simpl in Hdot, Hslash.
  rewrite Hdot, Hslash. split; reflexivity.
Qed.

(** X4. A name with dots or slashes shares its baseline file with the name
    that has underscores in their place: [public.orders] and [public_orders]
    are one record to [load], whatever the directory holds. *)
Theorem path_collision (self : store) (table_name : string) :
  BaselineStore._path (replace "." "_" table_name)
  = BaselineStore._path table_name
  /\ BaselineStore._path (replace "/" "_" table_name)
     = BaselineStore._path table_name
  /\ BaselineStore.load self (replace "." "_" table_name)
     = BaselineStore.load self table_name
  /\ BaselineStore.load self (replace "/" "_" table_name)
     = BaselineStore.load self table_name.
Proof.
  destruct (sanitise_again table_name) as [Hdot Hslash].
  unfold BaselineStore.load, BaselineStore._path.
  rewrite Hdot, Hslash. repeat split; reflexivity.
Qed.

(** X5. The run count counts the writes.  Over any sequence of saves for one
    table, starting from a directory in which [load] answers for it, every
    save returns and the run count stored in the end is the run count at the
    start (0 when there was no baseline) plus the number of saves that
    returned [True]. *)
Theorem run_count_counts_writes (table_name : string)
    (runs : list TableStats.t) (self : store) (existing : option Baseline.t) :
  Forall (fun stats => TableStats.table_name stats = table_name) runs ->
  BaselineStore.load self table_name = Ok existing ->
  exists (written : list bool) (self' : store) (final : option Baseline.t),
    save_all self runs = Ok (written, self')
    /\ length written = length runs
    /\ BaselineStore.load self' table_name = Ok final
    /\ run_count_of final
       = run_count_of existing
         + Z.of_nat (count_occ bool_dec written true).
Proof.
  intros Hnames. revert self existing.
  induction Hnames as [|stats runs Hname _ IH]; intros self existing Hload.
  - exists [], self, existing. simpl. repeat split; auto; lia.
  - simpl. rewrite <- Hname in Hload.
    pose proof (save_unfold _ _ _ Hload) as Hsave.
    assert (Hnext : exists w self1 next,
      BaselineStore.save self stats = Ok (w, self1)
      /\ BaselineStore.load self1 table_name = Ok next
      /\ run_count_of next = run_count_of existing + (if w then 1 else 0)).
    { destruct existing as [b|].
      - destruct (BaselineStore._has_changed b stats).
        + eexists true, _, _. split; [exact Hsave|].
          rewrite <- Hname. split; [apply load_written|reflexivity].
        + eexists false, _, _. split; [exact Hsave|].
          rewrite <- Hname. split; [exact Hload|]. simpl. lia.
      - eexists true, _, _. split; [exact Hsave|].
        rewrite <- Hname. split; [apply load_written|reflexivity]. }
    destruct Hnext as (w & self1 & next & Hs & Hload1 & Hcount1).
    destruct (IH self1 next Hload1)
      as (ws & self' & final & Hall & Hlen & Hfinal & Hcount).
    exists (w :: ws), self', final.
    rewrite Hs. simpl. rewrite Hall. simpl.
    repeat split; auto.
    rewrite Hcount, Hcount1. destruct w; simpl; lia.
Qed.

Lemma run_count_counts_writes_witness :
  exists (written : list bool) (self' : store) (final : option Baseline.t),
    save_all ∅ [stats_1000; stats_1000; stats_1200] = Ok (written, self')
    /\ length written = 3%nat
    /\ BaselineStore.load self' "orders" = Ok final
    /\ run_count_of final
       = run_count_of None + Z.of_nat (count_occ bool_dec written true).
Proof.
  apply (run_count_counts_writes "orders" [stats_1000; stats_1000; stats_1200]
           ∅ None).
  - repeat constructor.
  - reflexivity.
Defined.

Lemma load_after_delete (self : store) (table_name : string) :
  BaselineStore.load (BaselineStoreAdmin.delete self table_name).2 table_name
  = Ok None.
Proof.
  unfold BaselineStoreAdmin.delete, BaselineStore.load.
  destruct (self !! BaselineStore._path table_name) as [f|] eqn:Hfile; simpl.
  - now rewrite lookup_delete_eq.
  - now rewrite Hfile.
Qed.

(** X6. [delete] returns whether the file of the table was there.  After it
    [load] answers [None] for the table, also when the file held a record
    that made [load] raise, and [exists] answers [False]; the records of
    tables kept in other files are untouched. *)
Theorem delete_spec (self : store) (table_name : string) :
  (BaselineStoreAdmin.delete self table_name).1
  = BaselineStoreAdmin.exists_ self table_name
  /\ BaselineStore.load (BaselineStoreAdmin.delete self table_name).2
       table_name = Ok None
  /\ BaselineStoreAdmin.exists_
       (BaselineStoreAdmin.delete self table_name).2 table_name = false
  /\ forall other,
       BaselineStore._path other <> BaselineStore._path table_name ->
       BaselineStore.load (BaselineStoreAdmin.delete self table_name).2 other
       = BaselineStore.load self other.
Proof.
  unfold BaselineStoreAdmin.delete, BaselineStoreAdmin.exists_,
    BaselineStore.load.
  destruct (self !! BaselineStore._path table_name) as [f|] eqn:Hfile; simpl.
  - rewrite lookup_delete_eq. repeat split.
    intros other Hother. now rewrite lookup_delete_ne by congruence.
  - rewrite Hfile. repeat split.
Qed.

(** A [save] that follows a [delete] of the table always returns, always
    writes, and starts the run count again at 1, whatever the file held
    before. *)
Theorem save_after_delete (self : store) (stats : TableStats.t) :
  BaselineStore.save
    (BaselineStoreAdmin.delete self (TableStats.table_name stats)).2 stats
  = Ok (true,
        <[BaselineStore._path (TableStats.table_name stats) :=
            written_record stats 1]>
          (BaselineStoreAdmin.delete self (TableStats.table_name stats)).2).
Proof.
  apply save_after_absent. apply load_after_delete.
Qed.

(** ** The checks, continued *)

(** X7. [check_required_columns] returns one result per configured name, in
    the order given, each carrying its name.  The result is PASS exactly when
    the column exists and has no nulls, FAIL exactly when it is missing or
    has nulls, and never WARN. *)
Theorem check_required_columns_spec (stats : TableStats.t)
    (config : RequiredConfig.t) :
  length (check_required_columns stats config)
  = length (RequiredConfig.columns config)
  /\ forall (i : nat) (col_name : string),
       RequiredConfig.columns config !! i = Some col_name ->
       exists r,
         check_required_columns stats config !! i = Some r
         /\ CheckResult.column r = Some col_name
         /\ CheckResult.status r <> WARN
         /\ (CheckResult.status r = PASS <->
             exists col, TableStats.column stats col_name = Some col
                         /\ ColumnStats.null_count col <= 0)
         /\ (CheckResult.status r = FAIL <->
             TableStats.column stats col_name = None
             \/ exists col, TableStats.column stats col_name = Some col
                            /\ 0 < ColumnStats.null_count col).
Proof.
  unfold check_required_columns. split; [apply length_map|].
  intros i col_name Hi. rewrite lookup_map, Hi. simpl.
  eexists. split; [reflexivity|]. unfold required_result.
  destruct (TableStats.column stats col_name) as [col|].
  - destruct (Z.gtb_spec (ColumnStats.null_count col) 0) as [Hgt | Hle]; simpl;
      (split; [reflexivity|]); (split; [discriminate|]).
    + split; split.
      * discriminate.
      * intros (c & [= <-] & Hle). lia.
      * intros _. right. exists col. split; [reflexivity | lia].
      * reflexivity.
    + split; split.
      * intros _. exists col. split; [reflexivity | lia].
      * reflexivity.
      * discriminate.
      * intros [H | (c & [= <-] & Hlt)]; [discriminate | lia].
  - simpl. split; [reflexivity|]. split; [discriminate|]. split; split.
    + discriminate.
    + intros (c & H & _). discriminate.
    + auto.
    + reflexivity.
Qed.

(** X8. [check_row_count] returns exactly one result, without a column;
    it is FAIL exactly when a minimum is configured and the row count is
    below it, or a maximum is configured and the row count is above it; it is
    PASS otherwise and never WARN. *)
Theorem check_row_count_spec (stats : TableStats.t)
    (config : RowCountConfig.t) :
  exists r,
    check_row_count stats config = [r]
    /\ CheckResult.column r = None
    /\ CheckResult.status r <> WARN
    /\ (CheckResult.status r = FAIL <->
        (exists m, RowCountConfig.min_rows config = Some m
                   /\ TableStats.row_count stats < m)
        \/ (exists m, RowCountConfig.max_rows config = Some m
                      /\ m < TableStats.row_count stats))
    /\ (CheckResult.status r <> FAIL -> CheckResult.status r = PASS).
Proof.
  unfold check_row_count.
  destruct (RowCountConfig.min_rows config) as [lo|];
    destruct (RowCountConfig.max_rows config) as [hi|];
    try destruct (Z.ltb_spec (TableStats.row_count stats) lo);
    try destruct (Z.gtb_spec (TableStats.row_count stats) hi);
    (eexists; split; [reflexivity|]); simpl;
    (split; [reflexivity|]); (split; [discriminate|]);
    (split; [|try tauto; try reflexivity]);
    (split; [try discriminate; try reflexivity|]);
    try (intros; reflexivity);
    try (intros _; left; eexists; split; [reflexivity | lia]);
    try (intros _; right; eexists; split; [reflexivity | lia]);
    try (intros [(m & [= <-] & Hm) | (m & [= <-] & Hm)]; lia);
    try (intros [(m & [= <-] & Hm) | (m & Hm & _)]; (lia || discriminate));
    try (intros [(m & Hm & _) | (m & [= <-] & Hm)]; (lia || discriminate));
    try (intros [(m & Hm & _) | (m & Hm & _)]; discriminate).
Qed.

(** X9. [check_schema] returns one result per expected pair, in the order
    of the pairs, each carrying its column name.  The result is PASS exactly
    when the schema of the statistics has the name with a type equal to the
    expected one up to the case of ASCII letters; it is FAIL otherwise, also
    when the name is missing, and never WARN. *)
Theorem check_schema_spec (stats : TableStats.t) (config : SchemaConfig.t) :
  length (check_schema stats config)
  = length (SchemaConfig.expected config)
  /\ forall (i : nat) (col_name expected_dtype : string),
       SchemaConfig.expected config !! i = Some (col_name, expected_dtype) ->
       exists r,
         check_schema stats config !! i = Some r
         /\ CheckResult.column r = Some col_name
         /\ CheckResult.status r <> WARN
         /\ (CheckResult.status r = PASS <->
             exists actual_dtype,
               TableStats.schema stats !! col_name = Some actual_dtype
               /\ lower actual_dtype = lower expected_dtype)
         /\ (CheckResult.status r <> PASS -> CheckResult.status r = FAIL).
Proof.
  unfold check_schema. split; [apply List.length_map|].
  intros i col_name expected_dtype Hi. rewrite lookup_map, Hi. simpl.
  eexists. split; [reflexivity|].
  destruct (TableStats.schema stats !! col_name) as [actual|].
  - destruct (String.eqb_spec (lower actual) (lower expected_dtype))
      as [Heq | Hne]; simpl;
      (split; [reflexivity|]); (split; [discriminate|]); split.
    + split; [intros _; eauto | reflexivity].
    + intros H. now contradiction H.
    + split; [discriminate | intros (a & [= <-] & Heq); contradiction].
    + reflexivity.
  - simpl. split; [reflexivity|]. split; [discriminate|]. split.
    + split; [discriminate | intros (a & H & _); discriminate].
    + reflexivity.
Qed.

(** X10. [TableStats.column] answers [None] exactly for a name that no
    column carries, and otherwise the first column of that name: every column
    before it carries another name. *)
Theorem column_first_match (stats : TableStats.t) (name : string) :
  (TableStats.column stats name = None <->
   name ∉ TableStats.column_names stats)
  /\ forall c,
       TableStats.column stats name = Some c ->
       ColumnStats.name c = name
       /\ exists i,
            TableStats.columns stats !! i = Some c
            /\ forall (j : nat) c',
                 (j < i)%nat -> TableStats.columns stats !! j = Some c' ->
                 ColumnStats.name c' <> name.
Proof.
  unfold TableStats.column, TableStats.column_names.
  induction (TableStats.columns stats) as [|c0 cols [IHnone IHsome]]; simpl.
  - split; [split; [intros _; apply not_elem_of_nil | reflexivity]|].
    discriminate.
  - destruct (String.eqb_spec (ColumnStats.name c0) name) as [Heq | Hne].
    + split.
      * split; [discriminate|]. intros Hnot. exfalso. apply Hnot.
        rewrite Heq. apply list_elem_of_here.
      * intros c [= <-]. split; [exact Heq|]. exists 0%nat.
        split; [reflexivity|]. intros j c' Hj. lia.
    + split.
      * rewrite IHnone, not_elem_of_cons. intuition congruence.
      * intros c Hc. destruct (IHsome c Hc) as (Hname & i & Hi & Hfirst).
        split; [exact Hname|]. exists (S i). split; [exact Hi|].
        intros [|j] c' Hj Hc'; simpl in Hc'.
        -- injection Hc' as <-. exact Hne.
        -- apply (Hfirst j); [lia | exact Hc'].
Qed.

(** X11. An unchanged row count passes the volume check exactly when both
    thresholds are positive: the change is then 0%, which a threshold of 0 or
    less already reaches. *)
Theorem check_volume_change_unchanged (stats : TableStats.t)
    (config : VolumeChangeConfig.t) (baseline : Baseline.t) :
  TableStats.row_count stats = Baseline.row_count baseline ->
  exists r,
    check_volume_change stats config (Some baseline) = [r]
    /\ (CheckResult.status r = PASS <->
        (0 < VolumeChangeConfig.warn_pct config
         /\ 0 < VolumeChangeConfig.fail_pct config)%Q).
Proof.
  intros Hsame. unfold check_volume_change, Qge_bool.
  assert (Hzero : (volume_change_pct (TableStats.row_count stats)
                     (Baseline.row_count baseline) == 0)%Q).
  { unfold volume_change_pct, volume_delta. rewrite Hsame, Z.sub_diag.
    simpl. apply Qmult_0_l. }
  set (change_pct := volume_change_pct (TableStats.row_count stats)
                       (Baseline.row_count baseline)) in *.
  assert (Hfail : Qle_bool (VolumeChangeConfig.fail_pct config) change_pct
                  = true <-> (VolumeChangeConfig.fail_pct config <= 0)%Q)
    by (rewrite Qle_bool_iff, Hzero; reflexivity).
  assert (Hwarn : Qle_bool (VolumeChangeConfig.warn_pct config) change_pct
                  = true <-> (VolumeChangeConfig.warn_pct config <= 0)%Q)
    by (rewrite Qle_bool_iff, Hzero; reflexivity).
  destruct (Qle_bool (VolumeChangeConfig.fail_pct config) _).
  - eexists. split; [reflexivity|]. simpl. split; [discriminate|].
    intros [_ Hlt]. exfalso. apply (Qlt_not_le _ _ Hlt). now apply Hfail.
  - destruct (Qle_bool (VolumeChangeConfig.warn_pct config) _).
    + eexists. split; [reflexivity|]. simpl. split; [discriminate|].
      intros [Hlt _]. exfalso. apply (Qlt_not_le _ _ Hlt). now apply Hwarn.
    + eexists. split; [reflexivity|]. simpl. split; [|reflexivity].
      intros _. split; apply Qnot_le_lt; intros H;
        [apply Hwarn in H | apply Hfail in H]; discriminate.
Qed.

Lemma check_volume_change_unchanged_witness :
  exists r,
    check_volume_change stats_1000 VolumeChangeConfig.default
      (Some (written_baseline stats_1000 1)) = [r]
    /\ (CheckResult.status r = PASS <->
        (0 < VolumeChangeConfig.warn_pct VolumeChangeConfig.default
         /\ 0 < VolumeChangeConfig.fail_pct VolumeChangeConfig.default)%Q).
Proof.
  apply (check_volume_change_unchanged stats_1000 VolumeChangeConfig.default
           (written_baseline stats_1000 1)).
  reflexivity.
Defined.

(** ** Run results and the run summary *)

Lemma filter_status_split (l : list CheckResult.t) :
  List.filter (fun r => bool_decide (CheckResult.status r = PASS)) l
  ++ List.filter (fun r => bool_decide (CheckResult.status r = WARN)) l
  ++ List.filter (fun r => bool_decide (CheckResult.status r = FAIL)) l
  ≡ₚ l.
Proof.
  induction l as [|c l IH]; simpl; [reflexivity|].
  destruct (CheckResult.status c); simpl.
  - now rewrite IH.
  - rewrite <- Permutation_middle. now rewrite IH.
  - rewrite app_assoc, <- Permutation_middle, <- app_assoc. now rewrite IH.
Qed.

Lemma filter_status_Forall (s : Status) (l : list CheckResult.t) :
  Forall (fun r => CheckResult.status r = s)
    (List.filter (fun r => bool_decide (CheckResult.status r = s)) l).
Proof.
  apply Forall_forall. intros r Hr. apply list_elem_of_In in Hr.
  apply List.filter_In in Hr as [_ Hr]. now apply bool_decide_eq_true in Hr.
Qed.

Lemma filter_status_nil (s : Status) (l : list CheckResult.t) :
  List.filter (fun r => bool_decide (CheckResult.status r = s)) l = []
  <-> Forall (fun r => CheckResult.status r <> s) l.
Proof.
  induction l as [|c l IH]; simpl; [split; constructor|].
  destruct (decide (CheckResult.status c = s)) as [Heq | Hne].
  - rewrite bool_decide_eq_true_2 by exact Heq.
    split; [discriminate|]. intros H. inversion H. contradiction.
  - rewrite bool_decide_eq_false_2 by exact Hne. rewrite IH.
    split; [now constructor | intros H; now inversion H].
Qed.

(** X12. The three views of a run result split its results: [passed],
    [warnings] and [failures] together are the results again, each result
    once, and each view holds results of its own status only. *)
Theorem run_result_views (self : RunResult.t) :
  RunResultP.passed self ++ RunResultP.warnings self
  ++ RunResultP.failures self ≡ₚ RunResult.results self
  /\ Forall (fun r => CheckResult.status r = PASS) (RunResultP.passed self)
  /\ Forall (fun r => CheckResult.status r = WARN) (RunResultP.warnings self)
  /\ Forall (fun r => CheckResult.status r = FAIL) (RunResultP.failures self).
Proof.
  split; [apply filter_status_split|].
  repeat split; apply filter_status_Forall.
Qed.

(** X13. The overall status is the worst status among the results: FAIL
    exactly when some result is FAIL, WARN exactly when none is FAIL and some
    is WARN, PASS exactly when every result is PASS.  It does not look at
    [error]: a run result without results is PASS. *)
Theorem overall_status_worst (self : RunResult.t) :
  (RunResultP.overall_status self = FAIL <->
   Exists (fun r => CheckResult.status r = FAIL) (RunResult.results self))
  /\ (RunResultP.overall_status self = WARN <->
      Forall (fun r => CheckResult.status r <> FAIL) (RunResult.results self)
      /\ Exists (fun r => CheckResult.status r = WARN)
           (RunResult.results self))
  /\ (RunResultP.overall_status self = PASS <->
      Forall (fun r => CheckResult.status r = PASS) (RunResult.results self)).
Proof.
  unfold RunResultP.overall_status, RunResultP.failures, RunResultP.warnings.
  pose proof (filter_status_nil FAIL (RunResult.results self)) as Hfail.
  pose proof (filter_status_nil WARN (RunResult.results self)) as Hwarn.
  assert (Hex : forall s,
    Exists (fun r => CheckResult.status r = s) (RunResult.results self)
    <-> ~ Forall (fun r => CheckResult.status r <> s) (RunResult.results self)).
  { intros s. split.
    - intros Hsome Hnone. apply Exists_exists in Hsome as (r & Hr & Hs).
      rewrite Forall_forall in Hnone. exact (Hnone r Hr Hs).
    - intros Hnot.
      destruct (decide (Exists (fun r => CheckResult.status r = s)
                          (RunResult.results self))) as [Hyes | Hno];
        [exact Hyes|].
      exfalso. apply Hnot. apply Forall_forall. intros r Hr Hs.
      apply Hno. apply Exists_exists. eauto. }
  assert (Hpass :
    Forall (fun r => CheckResult.status r = PASS) (RunResult.results self)
    <-> Forall (fun r => CheckResult.status r <> FAIL) (RunResult.results self)
        /\ Forall (fun r => CheckResult.status r <> WARN)
             (RunResult.results self)).
  { rewrite <- Forall_and. apply Forall_iff. intros r.
    destruct (CheckResult.status r); intuition congruence. }
  rewrite !Hex, Hpass, <- Hfail, <- Hwarn.
  destruct (List.filter _ (RunResult.results self)) as [|f fs];
    destruct (List.filter _ (RunResult.results self)) as [|w ws];
    intuition congruence.
Qed.

Lemma fold_left_add (l : list Z) (a : Z) :
  fold_left Z.add l a = a + fold_left Z.add l 0.
Proof.
  revert a. induction l as [|x l IH]; intros a; cbn [fold_left]; [lia|].
  rewrite (IH (a + x)), (IH (0 + x)). lia.
Qed.

Lemma py_sum_cons (x : Z) (l : list Z) : py_sum (x :: l) = x + py_sum l.
Proof. unfold py_sum. simpl. apply fold_left_add. Qed.

Lemma total_nonneg {A} (f : A -> list CheckResult.t) (rs : list A) :
  0 <= py_sum (List.map (fun r => llen (f r)) rs).
Proof.
  induction rs as [|r rs IH]; cbn [List.map]; [reflexivity|].
  rewrite py_sum_cons. unfold llen in *. lia.
Qed.

Lemma total_pos {A} (f : A -> list CheckResult.t) (rs : list A) :
  (py_sum (List.map (fun r => llen (f r)) rs) >? 0)
  = existsb (fun r => match f r with [] => false | _ :: _ => true end) rs.
Proof.
  induction rs as [|r rs IH]; cbn [List.map existsb]; [reflexivity|].
  rewrite py_sum_cons, <- IH.
  pose proof (total_nonneg f rs) as Hrest.
  destruct (f r) as [|c cs]; unfold llen in *; simpl length.
  - reflexivity.
  - simpl orb. apply Z.gtb_gt. lia.
Qed.

Lemma clean_iff (r : RunResult.t) :
  RunResultP.has_failures r = false /\ RunResultP.has_warnings r = false
  <-> Forall (fun c => CheckResult.status c = PASS) (RunResult.results r).
Proof.
  unfold RunResultP.has_failures, RunResultP.has_warnings,
    RunResultP.failures, RunResultP.warnings.
  pose proof (filter_status_nil FAIL (RunResult.results r)) as Hfail.
  pose proof (filter_status_nil WARN (RunResult.results r)) as Hwarn.
  assert (Hpass :
    Forall (fun c => CheckResult.status c = PASS) (RunResult.results r)
    <-> Forall (fun c => CheckResult.status c <> FAIL) (RunResult.results r)
        /\ Forall (fun c => CheckResult.status c <> WARN)
             (RunResult.results r)).
  { rewrite <- Forall_and. apply Forall_iff. intros c.
    destruct (CheckResult.status c); intuition congruence. }
  rewrite Hpass, <- Hfail, <- Hwarn.
  destruct (List.filter _ (RunResult.results r));
    destruct (List.filter _ (RunResult.results r)); intuition congruence.
Qed.

Lemma all_clean_iff (rs : list RunResult.t) :
  existsb RunResultP.has_failures rs = false
  /\ existsb RunResultP.has_warnings rs = false
  <-> Forall (fun r => Forall (fun c => CheckResult.status c = PASS)
                         (RunResult.results r)) rs.
Proof.
  induction rs as [|r rs IH]; cbn [existsb].
  - split; [constructor | auto].
  - rewrite Forall_cons, <- IH, !orb_false_iff, <- clean_iff. tauto.
Qed.

(** X14. The totals of a summary add up: every check counted by
    [total_checks] is counted by exactly one of [total_passed],
    [total_warnings] and [total_failures]. *)
Theorem summary_totals (self : RunSummary.t) :
  RunSummary.total_checks self
  = RunSummary.total_passed self + RunSummary.total_warnings self
    + RunSummary.total_failures self.
Proof.
  unfold RunSummary.total_checks, RunSummary.total_passed,
    RunSummary.total_warnings, RunSummary.total_failures.
  induction (RunSummary.results self) as [|r rs IH]; cbn [List.map];
    [reflexivity|].
  rewrite !py_sum_cons, IH. unfold llen.
  rewrite <- (Permutation_length (filter_status_split (RunResult.results r))).
  unfold RunResultP.passed, RunResultP.warnings, RunResultP.failures.
  rewrite !length_app. lia.
Qed.

(** X15. The exit code ranks errors over failures over warnings.  It is 3
    exactly when some table carries a non-empty error text; 2 exactly when
    none does and the summary has failures; 1 exactly when none does, there
    are no failures and the summary has warnings; 0 exactly when no table
    carries an error text and every result of every table is PASS. *)
Theorem exit_code_spec (self : RunSummary.t) :
  let errored :=
    Exists (fun r => truthy (RunResult.error r) = true)
      (RunSummary.results self) in
  (RunSummary.exit_code self = 3 <-> errored)
  /\ (RunSummary.exit_code self = 2 <->
      ~ errored /\ RunSummary.has_failures self = true)
  /\ (RunSummary.exit_code self = 1 <->
      ~ errored /\ RunSummary.has_failures self = false
      /\ RunSummary.has_warnings self = true)
  /\ (RunSummary.exit_code self = 0 <->
      ~ errored
      /\ Forall (fun r => Forall (fun c => CheckResult.status c = PASS)
                            (RunResult.results r))
           (RunSummary.results self)).
Proof.
  intros errored.
  assert (Hhf : RunSummary.has_failures self
                = existsb RunResultP.has_failures (RunSummary.results self))
    by apply (total_pos RunResultP.failures).
  assert (Hhw : RunSummary.has_warnings self
                = existsb RunResultP.has_warnings (RunSummary.results self))
    by apply (total_pos RunResultP.warnings).
  rewrite Hhf, Hhw. unfold RunSummary.exit_code.
  assert (Herr : existsb (fun r => truthy (RunResult.error r))
                   (RunSummary.results self) = true <-> errored).
  { unfold errored. rewrite existsb_exists, Exists_exists.
    split; intros (r & Hr & Ht); exists r; split; auto;
      now apply list_elem_of_In. }
  pose proof (all_clean_iff (RunSummary.results self)) as Hclean.
  destruct (existsb (fun r => truthy (RunResult.error r)) _);
    destruct (existsb RunResultP.has_failures _);
    destruct (existsb RunResultP.has_warnings _);
    repeat split; try discriminate; try tauto;
    intuition (try discriminate; try congruence).
Qed.

Lemma quiet_nil_iff (duration : Q) (rs : list RunResult.t) :
  Reporter._print_quiet (RunSummary.mk rs duration) = []
  <-> existsb (fun r => truthy (RunResult.error r)) rs = false
      /\ existsb RunResultP.has_failures rs = false
      /\ existsb RunResultP.has_warnings rs = false.
Proof.
  unfold Reporter._print_quiet. cbn [RunSummary.results].
  induction rs as [|r rs IH]; cbn [List.flat_map existsb]; [tauto|].
  rewrite !orb_false_iff, app_nil, IH.
  unfold RunResultP.has_failures, RunResultP.has_warnings, truthy.
  destruct (RunResult.error r) as [[|c e]|];
    destruct (RunResultP.failures r), (RunResultP.warnings r); simpl;
    intuition discriminate.
Qed.

(** X16. Quiet mode is silent exactly on success: [_print_quiet] writes no
    line if and only if the exit code of the summary is 0. *)
Theorem quiet_silent_iff_success (summary : RunSummary.t) :
  Reporter._print_quiet summary = [] <-> RunSummary.exit_code summary = 0.
Proof.
  destruct summary as [rs duration]. rewrite quiet_nil_iff.
  unfold RunSummary.exit_code. cbn [RunSummary.results].
  destruct (existsb (fun r => truthy (RunResult.error r)) rs);
    destruct (existsb RunResultP.has_failures rs);
    destruct (existsb RunResultP.has_warnings rs);
    intuition discriminate.
Qed.

(** ** Runs against the store, and the command line *)

Lemma exec_run_unfold (stats : TableStats.t) (config : TableConfig.t)
    (self : store) :
  exec (Runner.run stats config) self
  = (baseline ← BaselineStore.load self (TableStats.table_name stats);
     saved ← BaselineStore.save self stats;
     mret (value (answers_of baseline saved.1) (Runner.run stats config),
           saved.2)).
Proof.
  unfold Runner.run. simpl.
  destruct (BaselineStore.load self (TableStats.table_name stats))
    as [baseline|e]; [|reflexivity].
  simpl. destruct (BaselineStore.save self stats) as [[updated self']|e];
    reflexivity.
Qed.

Lemma exec_dry_run_unfold (stats : TableStats.t) (config : TableConfig.t)
    (self : store) :
  exec_dry_run (Runner.run stats config) self
  = (baseline ← BaselineStore.load self (TableStats.table_name stats);
     mret (value (answers_of baseline false) (Runner.run stats config), self)).
Proof.
  unfold Runner.run. simpl.
  destruct (BaselineStore.load self (TableStats.table_name stats));
    reflexivity.
Qed.


(** X18. Two runs over the same statistics: when [load] answers for the
    table, the first run returns, a second run on the directory it leaves
    returns too, reports [baseline_updated = False] and leaves the directory
    as it found it, whatever the two configurations are; and the first run
    reports [baseline_updated = True] when there was no baseline. *)
Theorem run_twice (stats : TableStats.t) (config config' : TableConfig.t)
    (self : store) (existing : option Baseline.t) :
  BaselineStore.load self (TableStats.table_name stats) = Ok existing ->
  exists r1 self1 r2,
    exec (Runner.run stats config) self = Ok (r1, self1)
    /\ exec (Runner.run stats config') self1 = Ok (r2, self1)
    /\ RunResult.baseline_updated r2 = false
    /\ (existing = None -> RunResult.baseline_updated r1 = true).
Proof.
  intros Hload.
  assert (Hfirst : exists w self1 b1,
    BaselineStore.save self stats = Ok (w, self1)
    /\ BaselineStore.load self1 (TableStats.table_name stats) = Ok (Some b1)
    /\ BaselineStore._has_changed b1 stats = false
    /\ (existing = None -> w = true)).
  { rewrite (save_unfold _ _ _ Hload). destruct existing as [b|].
    - destruct (BaselineStore._has_changed b stats) eqn:Hchanged.
      + eexists _, _, _. split; [reflexivity|]. split; [apply load_written|].
        split; [now apply has_changed_written | discriminate].
      + eexists _, _, _. split; [reflexivity|]. split; [exact Hload|].
        split; [exact Hchanged | discriminate].
    - eexists _, _, _. split; [reflexivity|]. split; [apply load_written|].
      split; [now apply has_changed_written | reflexivity]. }
  destruct Hfirst as (w & self1 & b1 & Hsave & Hload1 & Hsame & Hnew).
  exists (value (answers_of existing w) (Runner.run stats config)), self1,
    (value (answers_of (Some b1) false) (Runner.run stats config')).
  split; [|split; [|split]].
  - rewrite exec_run_unfold, Hload. cbn [mbind result_bind].
    rewrite Hsave. reflexivity.
  - rewrite exec_run_unfold, Hload1. cbn [mbind result_bind].
    rewrite (save_unfold _ _ _ Hload1), Hsame. reflexivity.
  - reflexivity.
  - intros Hnone. rewrite (Hnew Hnone). reflexivity.
Qed.

Lemma run_twice_witness :
  exists r1 self1 r2,
    exec (Runner.run stats_1000 make_config) ∅ = Ok (r1, self1)
    /\ exec (Runner.run stats_1000 make_config) self1 = Ok (r2, self1)
    /\ RunResult.baseline_updated r2 = false
    /\ (@None Baseline.t = None -> RunResult.baseline_updated r1 = true).
Proof.
  apply (run_twice stats_1000 make_config make_config ∅ None). reflexivity.
Defined.

(** X19. A dry run only leaves out the write: when the dry run of a table
    returns it leaves the directory untouched and reports
    [baseline_updated = False], and the run proper from the same directory
    returns too, with the same table, layer and results. *)
Theorem dry_run_same_results (config : TableConfig.t) (stats : TableStats.t)
    (self self' : store) (r : RunResult.t) :
  _run_table config (Collected stats) true self = Ok (r, self') ->
  self' = self
  /\ RunResult.baseline_updated r = false
  /\ exists r' self'',
       _run_table config (Collected stats) false self = Ok (r', self'')
       /\ RunResult.results r' = RunResult.results r
       /\ RunResult.table r' = RunResult.table r
       /\ RunResult.layer r' = RunResult.layer r
       /\ RunResult.error r' = RunResult.error r.
Proof.
  unfold _run_table. rewrite exec_dry_run_unfold, exec_run_unfold.
  destruct (BaselineStore.load self (TableStats.table_name stats))
    as [existing|e] eqn:Hload; simpl; [|discriminate].
  intros [= <- <-]. split; [reflexivity|]. split; [reflexivity|].
  rewrite (save_unfold _ _ _ Hload).
  destruct existing as [b|];
    [destruct (BaselineStore._has_changed b stats)|];
    eexists _, _; (split; [reflexivity|]); repeat split.
Qed.

Lemma dry_run_same_results_witness :
  ∅ = (∅ : store)
  /\ RunResult.baseline_updated
       (value (answers_of None false) (Runner.run stats_1000 make_config))
     = false
  /\ exists r' self'',
       _run_table make_config (Collected stats_1000) false ∅ = Ok (r', self'')
       /\ RunResult.results r'
          = RunResult.results
              (value (answers_of None false)
                 (Runner.run stats_1000 make_config))
       /\ RunResult.table r'
          = RunResult.table
              (value (answers_of None false)
                 (Runner.run stats_1000 make_config))
       /\ RunResult.layer r'
          = RunResult.layer
              (value (answers_of None false)
                 (Runner.run stats_1000 make_config))
       /\ RunResult.error r'
          = RunResult.error
              (value (answers_of None false)
                 (Runner.run stats_1000 make_config)).
Proof.
  apply (dry_run_same_results make_config stats_1000 ∅ ∅). reflexivity.
Defined.




Lemma cmd_run_results_length (dry_run : bool)
    (tables : list (TableConfig.t * collected)) (self self' : store)
    (rs : list RunResult.t) :
  _cmd_run_results dry_run tables self = Ok (rs, self') ->
  length rs = length tables.
Proof.
  revert self self' rs. induction tables as [|[config outcome] tables IH];
    intros self self' rs; cbn [_cmd_run_results].
  - intros [= <- _]. reflexivity.
  - destruct (_run_table config outcome dry_run self) as [[r self1]|e];
      cbn [mbind result_bind fst snd]; [|discriminate].
    destruct (_cmd_run_results dry_run tables self1) as [[rs' self2]|e]
      eqn:Hrest; cbn [mbind result_bind mret result_ret fst snd];
      [|discriminate].
    intros [= <- _]. simpl. f_equal. exact (IH _ _ _ Hrest).
Qed.

Lemma cmd_run_results_app (dry_run : bool)
    (l1 l2 : list (TableConfig.t * collected)) (self : store) :
  _cmd_run_results dry_run (l1 ++ l2) self
  = (r1 ← _cmd_run_results dry_run l1 self;
     r2 ← _cmd_run_results dry_run l2 r1.2;
     mret (r1.1 ++ r2.1, r2.2)).
Proof.
  revert self. induction l1 as [|[config outcome] l1 IH]; intros self;
    cbn [_cmd_run_results app].
  - cbn [mbind result_bind fst snd].
    destruct (_cmd_run_results dry_run l2 self) as [[rs s]|e]; reflexivity.
  - destruct (_run_table config outcome dry_run self) as [[r self1]|e];
      cbn [mbind result_bind fst snd]; [|reflexivity].
    rewrite IH.
    destruct (_cmd_run_results dry_run l1 self1) as [[rs1 s1]|e];
      cbn [mbind result_bind mret result_ret fst snd]; [|reflexivity].
    destruct (_cmd_run_results dry_run l2 s1) as [[rs2 s2]|e];
      cbn [mbind result_bind mret result_ret fst snd]; reflexivity.
Qed.

Lemma run_table_dry (config : TableConfig.t) (outcome : collected)
    (self self1 : store) (r : RunResult.t) :
  _run_table config outcome true self = Ok (r, self1) ->
  self1 = self /\ RunResult.baseline_updated r = false.
Proof.
  unfold _run_table. destruct outcome as [m|stats].
  - intros [= <- <-]. auto.
  - rewrite exec_dry_run_unfold.
    destruct (BaselineStore.load self (TableStats.table_name stats));
      cbn [mbind result_bind mret result_ret];
      [intros [= <- <-]; auto | discriminate].
Qed.

(** X21. A dry run of the whole loop writes nothing: when it returns, the
    directory is the one it started from, there is one run result per table,
    and none reports an updated baseline. *)
Theorem cmd_run_dry_run (tables : list (TableConfig.t * collected))
    (self self' : store) (rs : list RunResult.t) :
  _cmd_run_results true tables self = Ok (rs, self') ->
  self' = self
  /\ length rs = length tables
  /\ Forall (fun r => RunResult.baseline_updated r = false) rs.
Proof.
  intros Hrun.
  assert (Hlen := cmd_run_results_length _ _ _ _ _ Hrun).
  cut (self' = self
       /\ Forall (fun r => RunResult.baseline_updated r = false) rs);
    [tauto|].
  clear Hlen. revert self rs Hrun.
  induction tables as [|[config outcome] tables IH]; intros self rs;
    cbn [_cmd_run_results].
  - intros [= <- <-]. auto.
  - destruct (_run_table config outcome true self) as [[r self1]|e] eqn:Hone;
      cbn [mbind result_bind fst snd]; [|discriminate].
    apply run_table_dry in Hone as [-> Hflag].
    destruct (_cmd_run_results true tables self) as [[rs' self2]|e] eqn:Hrest;
      cbn [mbind result_bind mret result_ret fst snd]; [|discriminate].
    intros [= <- <-]. destruct (IH _ _ Hrest) as [-> Hall]. auto.
Qed.

Lemma cmd_run_dry_run_witness :
  exists rs self',
    self' = store_1000
    /\ length rs
       = length [(make_config, Collected stats_1000);
                 (make_config, CollectFailed "connection refused")]
    /\ Forall (fun r => RunResult.baseline_updated r = false) rs.
Proof.
  eexists _, _.
  apply (cmd_run_dry_run
           [(make_config, Collected stats_1000);
            (make_config, CollectFailed "connection refused")] store_1000).
  reflexivity.
Defined.

(** X22. A table whose collection failed stands alone in the loop: its run
    result is its error text with no results, placed at its position, and
    the run results of all other tables and the directory left are those of
    the loop without that table. *)
Theorem cmd_run_failed_table_isolated (dry_run : bool)
    (before after : list (TableConfig.t * collected))
    (config : TableConfig.t) (message : string) (self : store) :
  _cmd_run_results dry_run
    (before ++ (config, CollectFailed message) :: after) self
  = (r ← _cmd_run_results dry_run (before ++ after) self;
     mret (take (length before) r.1
           ++ RunResult.mk (TableConfig.table config)
                (TableConfig.layer config) [] false (Some message)
              :: drop (length before) r.1,
           r.2)).
Proof.
  rewrite !cmd_run_results_app.
  destruct (_cmd_run_results dry_run before self) as [[rs1 s1]|e] eqn:Hbefore;
    cbn [mbind result_bind mret result_ret fst snd _cmd_run_results _run_table];
    [|reflexivity].
  apply cmd_run_results_length in Hbefore.
  destruct (_cmd_run_results dry_run after s1) as [[rs2 s2]|e];
    cbn [mbind result_bind mret result_ret fst snd]; [|reflexivity].
  rewrite <- Hbefore, take_app_length, drop_app_length. reflexivity.
Qed.

(** ** Configurations built by the loader *)

(** The results of a run, stage by stage, for any store. *)
Lemma run_results (stats : TableStats.t) (config : TableConfig.t)
    (o : answers) :
  let baseline := o _ (call_load (TableStats.table_name stats)) in
  RunResult.results (value o (Runner.run stats config))
  = match TableConfig.schema config with
    | Some schema => check_schema stats schema
    | None => []
    end
    ++ (if TableConfig.run_drift_check config then
          check_schema_drift stats
            match TableConfig.drift config with
            | Some drift => drift
            | None =>
                SchemaDriftConfig.mk
                  match baseline with
                  | Some b => (map_to_list (Baseline.schema b)).*1
                  | None => []
                  end
            end
            baseline
        else [])
    ++ (if TableConfig.run_null_check config then
          check_null_rate stats
            match TableConfig.null config with
            | Some null => null
            | None => NullConfig.default
            end
        else [])
    ++ match TableConfig.required config with
       | Some required => check_required_columns stats required
       | None => []
       end
    ++ match TableConfig.unique config with
       | Some unique => check_unique stats unique
       | None => []
       end
    ++ match TableConfig.row_count config with
       | Some row_count => check_row_count stats row_count
       | None => []
       end
    ++ (if TableConfig.run_volume_check config then
          check_volume_change stats
            match TableConfig.volume config with
            | Some volume => volume
            | None => VolumeChangeConfig.default
            end
            baseline
        else []).
Proof.
  intros baseline. unfold Runner.run. simpl. fold baseline.
  rewrite !extend_some, !extend_if, <- !app_assoc. reflexivity.
Qed.

(** The name each check function gives to its results. *)
Lemma check_names (stats : TableStats.t) :
  (forall config baseline,
     Forall (fun c => CheckResult.check c = "schema_drift")
       (check_schema_drift stats config baseline))
  /\ (forall config,
        Forall (fun c => CheckResult.check c = "null_rate")
          (check_null_rate stats config))
  /\ (forall config,
        Forall (fun c => CheckResult.check c = "required_columns")
          (check_required_columns stats config))
  /\ (forall config,
        Forall (fun c => CheckResult.check c = "unique")
          (check_unique stats config))
  /\ (forall config,
        Forall (fun c => CheckResult.check c = "row_count")
          (check_row_count stats config))
  /\ (forall config baseline,
        Forall (fun c => CheckResult.check c = "volume_change")
          (check_volume_change stats config baseline)).
Proof.
  repeat split.
  - intros config [b|]; unfold check_schema_drift; [|repeat constructor].
    destruct (_ && _); [repeat constructor|].
    apply Forall_app; split; case_bool_decide; repeat constructor.
  - intros config. unfold check_null_rate. apply Forall_forall.
    intros c Hc. apply list_elem_of_In, List.in_map_iff in Hc as (col & <- & _).
    unfold null_rate_result. destruct col as [col|]; [|reflexivity].
    destruct (Qeq_bool _ _); [reflexivity|].
    destruct (Qge_bool _ (NullConfig.fail_pct config)); [reflexivity|].
    destruct (Qge_bool _ _); reflexivity.
  - intros config. unfold check_required_columns. apply Forall_forall.
    intros c Hc. apply list_elem_of_In, List.in_map_iff in Hc as (n & <- & _).
    unfold required_result. destruct (TableStats.column stats n) as [col|];
      [|reflexivity].
    destruct (_ >? 0); reflexivity.
  - intros config. unfold check_unique.
    destruct (UniqueConfig.columns config) as [|n [|n' ns]];
      destruct (TableStats.column stats _) as [col|];
      try destruct (_ >? 0); repeat constructor.
  - intros config. unfold check_row_count.
    destruct (RowCountConfig.min_rows config) as [lo|];
      destruct (RowCountConfig.max_rows config) as [hi|];
      try destruct (_ <? lo); try destruct (_ >? hi); repeat constructor.
  - intros config [b|]; unfold check_volume_change; [|repeat constructor].
    destruct (Qge_bool _ (VolumeChangeConfig.fail_pct config));
      [repeat constructor|].
    destruct (Qge_bool _ _); repeat constructor.
Qed.

Lemma schema_drift_nonempty (stats : TableStats.t)
    (config : SchemaDriftConfig.t) (baseline : option Baseline.t) :
  check_schema_drift stats config baseline <> [].
Proof.
  unfold check_schema_drift. destruct baseline as [b|]; [|discriminate].
  repeat case_bool_decide; simpl; try discriminate; tauto.
Qed.

Lemma volume_change_one (stats : TableStats.t)
    (config : VolumeChangeConfig.t) (baseline : option Baseline.t) :
  exists c, check_volume_change stats config baseline = [c].
Proof.
  unfold check_volume_change. destruct baseline; [|eauto].
  destruct (Qge_bool _ _); [eauto|]. destruct (Qge_bool _ _); eauto.
Qed.

(** X23. What a table configured in [gaya.yml] always gets: whatever the
    file says, and whatever the store answers, its run has a schema-drift
    result, a volume-change result and a null-rate result for every column
    of the table carrying that column's name, and it has no result of the
    explicit schema check. *)
Theorem loader_config_run (name : string) (cfg : TableYaml.t)
    (defaults : DefaultsYaml.t) (stats : TableStats.t) (o : answers) :
  let config := Loader._parse_table name cfg defaults in
  let results := RunResult.results (value o (Runner.run stats config)) in
  Forall (fun c => CheckResult.check c <> "schema") results
  /\ (exists c, c ∈ results /\ CheckResult.check c = "schema_drift")
  /\ (exists c, c ∈ results /\ CheckResult.check c = "volume_change")
  /\ forall col,
       col ∈ TableStats.columns stats ->
       exists c,
         c ∈ results /\ CheckResult.check c = "null_rate"
         /\ CheckResult.column c = Some (ColumnStats.name col).
Proof.
  intros config results. subst results. rewrite run_results.
  subst config. cbn [Loader._parse_table TableConfig.schema
    TableConfig.run_drift_check TableConfig.drift TableConfig.run_null_check
    TableConfig.null TableConfig.required TableConfig.unique
    TableConfig.row_count TableConfig.run_volume_check TableConfig.volume app].
  destruct (check_names stats)
    as (Hdrift & Hnull & Hrequired & Hunique & Hrows & Hvolume).
  set (baseline := o _ (call_load (TableStats.table_name stats))).
  split; [|split; [|split]].
  - rewrite !Forall_app.
    repeat split;
      repeat match goal with
             | |- Forall _ (match ?x with _ => _ end) => destruct x
             | |- Forall _ (if ?x then _ else _) => destruct x
             end;
      try (apply Forall_nil; exact I);
      (eapply Forall_impl;
       [first [apply Hdrift | apply Hnull | apply Hrequired | apply Hunique
              | apply Hrows | apply Hvolume]
       | intros c Hc; simpl in Hc; rewrite Hc; discriminate]).
  - destruct (check_schema_drift stats _ baseline) as [|c cs] eqn:Hcs;
      [now apply schema_drift_nonempty in Hcs|].
    exists c. split; [apply list_elem_of_here|].
    pose proof (Hdrift (SchemaDriftConfig.mk
                          match baseline with
                          | Some b => (map_to_list (Baseline.schema b)).*1
                          | None => []
                          end) baseline) as Hall.
    rewrite Hcs in Hall. now inversion Hall.
  - match goal with
    | |- context [check_volume_change stats ?vc baseline] =>
        destruct (volume_change_one stats vc baseline) as [c Hcs];
        pose proof (Hvolume vc baseline) as Hall
    end.
    exists c. rewrite Hcs in *. split.
    + rewrite !elem_of_app. do 5 right. apply list_elem_of_here.
    + now inversion Hall.
  - intros col Hcol.
    match goal with
    | |- context [check_null_rate stats ?nc] => set (null_config := nc)
    end.
    assert (Hin : null_rate_result stats null_config (Some col)
                  ∈ check_null_rate stats null_config).
    { unfold check_null_rate, columns_to_check. cbn [NullConfig.columns].
      apply list_elem_of_In, List.in_map, List.in_map.
      now apply list_elem_of_In. }
    exists (null_rate_result stats null_config (Some col)).
    split; [|split].
    + rewrite !elem_of_app. right. left. exact Hin.
    + pose proof (Hnull null_config) as Hall.
      rewrite Forall_forall in Hall. now apply Hall.
    + apply null_rate_status.
Qed.

(** X24. A row-count bound of 0 does not count as configured: when each
    bound of a table in [gaya.yml] is either absent or 0, for instance
    [max_rows: 0] alone, the run of that table has no row-count result,
    however many rows the table has. *)
Theorem loader_zero_bounds_unchecked (name : string) (cfg : TableYaml.t)
    (defaults : DefaultsYaml.t) (stats : TableStats.t) (o : answers) :
  TableYaml.min_rows cfg = None \/ TableYaml.min_rows cfg = Some 0 ->
  TableYaml.max_rows cfg = None \/ TableYaml.max_rows cfg = Some 0 ->
  TableConfig.row_count (Loader._parse_table name cfg defaults) = None
  /\ Forall (fun c => CheckResult.check c <> "row_count")
       (RunResult.results
          (value o (Runner.run stats (Loader._parse_table name cfg defaults)))).
Proof.
  intros Hmin Hmax.
  assert (Hnone :
    TableConfig.row_count (Loader._parse_table name cfg defaults) = None).
  { cbn [Loader._parse_table TableConfig.row_count].
    destruct Hmin as [-> | ->], Hmax as [-> | ->]; reflexivity. }
  split; [exact Hnone|].
  rewrite run_results, Hnone.
  destruct (check_names stats)
    as (Hdrift & Hnull & Hrequired & Hunique & _ & Hvolume).
  cbn [Loader._parse_table TableConfig.schema
    TableConfig.run_drift_check TableConfig.drift TableConfig.run_null_check
    TableConfig.null TableConfig.required TableConfig.unique
    TableConfig.run_volume_check TableConfig.volume app].
  rewrite !Forall_app.
  repeat split;
    repeat match goal with
           | |- Forall _ (match ?x with _ => _ end) => destruct x
           end;
    try (apply Forall_nil; exact I);
    (eapply Forall_impl;
     [first [apply Hdrift | apply Hnull | apply Hrequired | apply Hunique
            | apply Hvolume]
     | intros c Hc; simpl in Hc; rewrite Hc; discriminate]).
Qed.

Lemma loader_zero_bounds_unchecked_witness :
  TableConfig.row_count
    (Loader._parse_table "orders"
       (TableYaml.mk None None None None None (Some 0))
       (DefaultsYaml.mk None None None None)) = None
  /\ Forall (fun c => CheckResult.check c <> "row_count")
       (RunResult.results
          (value (answers_of None true)
             (Runner.run stats_1000
                (Loader._parse_table "orders"
                   (TableYaml.mk None None None None None (Some 0))
                   (DefaultsYaml.mk None None None None))))).
Proof.
  apply (loader_zero_bounds_unchecked "orders"
           (TableYaml.mk None None None None None (Some 0))
           (DefaultsYaml.mk None None None None) stats_1000
           (answers_of None true)).
  - left. reflexivity.
  - right. reflexivity.
Defined.

(** ** The Postgres adapter *)

Lemma lower_ascii_idem (c : ascii) : lower_ascii (lower_ascii c) = lower_ascii c.
Proof. destruct c as [[] [] [] [] [] [] [] []]; reflexivity. Qed.

Lemma lower_idem (s : string) : lower (lower s) = lower s.
Proof.
  induction s as [|c s IH]; simpl; [reflexivity|].
  now rewrite lower_ascii_idem, IH.
Qed.

Lemma pg_type_map_values (k v : string) :
  Postgres._PG_TYPE_MAP !! k = Some v -> Postgres._normalize_pg_type v = v.
Proof.
  intros Hk. unfold Postgres._PG_TYPE_MAP in Hk.
  apply elem_of_list_to_map_2 in Hk.
  change (Postgres._normalize_pg_type (k, v).2 = (k, v).2).
  revert Hk. generalize (k, v). apply Forall_forall.
  repeat (apply Forall_cons; split; [vm_compute; reflexivity|]).
  apply Forall_nil. exact I.
Qed.

(** X25. Normalising a Postgres type is idempotent and does not depend on
    the case of ASCII letters: a normalised type is normalised to itself,
    and a type written in upper case is normalised like its lower case. *)
Theorem normalize_pg_type_idempotent (pg_type : string) :
  Postgres._normalize_pg_type (Postgres._normalize_pg_type pg_type)
  = Postgres._normalize_pg_type pg_type
  /\ Postgres._normalize_pg_type (lower pg_type)
     = Postgres._normalize_pg_type pg_type.
Proof.
  split; [|unfold Postgres._normalize_pg_type; now rewrite lower_idem].
  destruct (Postgres._PG_TYPE_MAP !! lower pg_type) as [v|] eqn:Hv.
  - assert (Postgres._normalize_pg_type pg_type = v) as ->
      by (unfold Postgres._normalize_pg_type; now rewrite Hv).
    exact (pg_type_map_values _ _ Hv).
  - assert (Postgres._normalize_pg_type pg_type = lower pg_type) as ->
      by (unfold Postgres._normalize_pg_type; now rewrite Hv).
    unfold Postgres._normalize_pg_type. now rewrite lower_idem, Hv.
Qed.

Lemma split_dot_spec (table : string) :
  match Postgres.split_dot table with
  | (head, Some tail) =>
      table = String.append head (String "." tail)
      /\ has_char "." head = false /\ has_char "." table = true
  | (head, None) => head = table /\ has_char "." table = false
  end.
Proof.
  induction table as [|c s IH]; simpl; [auto|].
  destruct (Ascii.eqb_spec c ".") as [->|Hc]; simpl; [auto|].
  apply Ascii.eqb_neq in Hc.
  destruct (Postgres.split_dot s) as [head [tail|]]; simpl.
  - destruct IH as (Hs & Hhead & Hdot).
    rewrite ?Hc, Hhead, ?Hdot, ?orb_true_r.
    split; [|auto]. rewrite Hs at 1. reflexivity.
  - destruct IH as [-> Hdot]. rewrite ?Hc, ?Hdot. auto.
Qed.

(** X26. [_parse_table] splits a table name at its first dot: a name
    without a dot is a table of the schema [public]; a name with a dot is
    its schema, which has no dot, then a dot, then the table, which may have
    more dots. *)
Theorem pg_parse_table_spec (table : string) :
  (has_char "." table = false ->
   Postgres._parse_table table = ("public", table))
  /\ (has_char "." table = true ->
      table
      = String.append (Postgres._parse_table table).1
          (String "." (Postgres._parse_table table).2)
      /\ has_char "." (Postgres._parse_table table).1 = false).
Proof.
  unfold Postgres._parse_table.
  pose proof (split_dot_spec table) as Hsplit.
  destruct (Postgres.split_dot table) as [head [tail|]]; simpl.
  - destruct Hsplit as (Htable & Hhead & Hdot). split; [congruence | auto].
  - destruct Hsplit as [-> Hdot]. split; [auto | congruence].
Qed.

Lemma build_columns_spec (row_count : Z) (agg_stats : Postgres.AggStats.t)
    (column_meta : list (string * string)) (columns : list ColumnStats.t)
    (schema : gmap string string) :
  let built :=
    Postgres.build_columns row_count agg_stats column_meta columns schema in
  List.map ColumnStats.name built.1
  = List.map ColumnStats.name columns ++ column_meta.*1
  /\ dom built.2 = dom schema ∪ list_to_set column_meta.*1
  /\ (Forall (fun c => ColumnStats.row_count c = row_count) columns ->
      Forall (fun c => ColumnStats.row_count c = row_count) built.1)
  /\ (NoDup (List.map ColumnStats.name columns ++ column_meta.*1) ->
      Forall (fun c => schema !! ColumnStats.name c
                       = Some (ColumnStats.dtype c)) columns ->
      Forall (fun c => built.2 !! ColumnStats.name c
                       = Some (ColumnStats.dtype c)) built.1).
Proof.
  revert columns schema.
  induction column_meta as [|[col_name pg_type] column_meta IH];
    intros columns schema; cbn [Postgres.build_columns fmap list_fmap fst snd].
  - rewrite app_nil_r, list_to_set_nil, (right_id_L ∅ (∪)). auto.
  - match goal with
    | |- context [Postgres.build_columns _ _ _ ?cols ?sch] =>
        specialize (IH cols sch); destruct IH as (Hnames & Hdom & Hrows & Hlook)
    end.
    split; [|split; [|split]].
    + rewrite Hnames, List.map_app, <- app_assoc. reflexivity.
    + rewrite Hdom, dom_insert_L, list_to_set_cons.
      rewrite (assoc_L (∪)), (comm_L (∪) {[col_name]}). reflexivity.
    + intros Hall. apply Hrows. apply Forall_app. split; [exact Hall|].
      repeat constructor.
    + intros Hnodup Hall. apply Hlook.
      * rewrite List.map_app, <- app_assoc. exact Hnodup.
      * apply Forall_app. split.
        -- apply Forall_forall. intros c Hc.
           rewrite lookup_insert_ne; [exact (proj1 (Forall_forall _ _) Hall c Hc)|].
           intros Heq. apply NoDup_app in Hnodup as (_ & Hdisj & _).
           apply (Hdisj col_name).
           ++ rewrite Heq. apply list_elem_of_In, List.in_map.
              now apply list_elem_of_In.
           ++ apply list_elem_of_here.
        -- repeat constructor. cbn [ColumnStats.name ColumnStats.dtype].
           apply lookup_insert_eq.
Qed.

(** X27. Statistics built by the adapter are well formed.  When
    [_build_table_stats] returns, the table name, row count and timestamp are
    those given and the layer is the one named; the columns are those of the
    metadata, in order; every column carries the row count of the table; the
    keys of the schema are exactly the column names; and, when no column name
    repeats, the schema maps each column to its type. *)
Theorem build_table_stats_well_formed (table layer : string)
    (column_meta : list (string * string))
    (agg_stats : Postgres.AggStats.t) (now : string) (stats : TableStats.t) :
  Postgres._build_table_stats table layer column_meta agg_stats now
  = Some stats ->
  TableStats.table_name stats = table
  /\ Layer_value (TableStats.layer stats) = layer
  /\ TableStats.row_count stats = Postgres.AggStats._row_count agg_stats
  /\ TableStats.collected_at stats = now
  /\ TableStats.column_names stats = column_meta.*1
  /\ Forall (fun c => ColumnStats.row_count c = TableStats.row_count stats)
       (TableStats.columns stats)
  /\ dom (TableStats.schema stats)
     = list_to_set (TableStats.column_names stats)
  /\ (NoDup column_meta.*1 ->
      Forall (fun c => TableStats.schema stats !! ColumnStats.name c
                       = Some (ColumnStats.dtype c))
        (TableStats.columns stats)).
Proof.
  unfold Postgres._build_table_stats.
  pose proof (build_columns_spec (Postgres.AggStats._row_count agg_stats)
                agg_stats column_meta [] ∅) as Hbuilt.
  destruct (Postgres.build_columns _ agg_stats column_meta [] ∅)
    as [columns schema].
  cbn [fst snd List.map app] in Hbuilt.
  destruct Hbuilt as (Hnames & Hdom & Hrows & Hlook).
  assert (Hlayer : forall l, Postgres.Layer_of_value layer = Some l ->
                             Layer_value l = layer).
  { unfold Postgres.Layer_of_value. intros l.
    destruct (String.eqb_spec layer "upstream") as [->|_];
      [intros [= <-]; reflexivity|].
    destruct (String.eqb_spec layer "staging") as [->|_];
      [intros [= <-]; reflexivity|].
    destruct (String.eqb_spec layer "downstream") as [->|_];
      [intros [= <-]; reflexivity | discriminate]. }
  destruct (Postgres.Layer_of_value layer) as [l|]; [|discriminate].
  intros [= <-]. cbn [TableStats.table_name TableStats.layer
    TableStats.row_count TableStats.collected_at TableStats.columns
    TableStats.schema]. unfold TableStats.column_names.
  cbn [TableStats.columns].
  rewrite dom_empty_L, (left_id_L ∅ (∪)) in Hdom. rewrite Hnames.
  repeat split; auto.
Qed.

Lemma build_table_stats_well_formed_witness :
  TableStats.table_name pg_stats = "public.orders"
  /\ Layer_value (TableStats.layer pg_stats) = "staging"
  /\ TableStats.row_count pg_stats = Postgres.AggStats._row_count pg_agg_stats
  /\ TableStats.collected_at pg_stats = "2026-02-19T10:00:00+00:00"
  /\ TableStats.column_names pg_stats = pg_column_meta.*1
  /\ Forall (fun c => ColumnStats.row_count c = TableStats.row_count pg_stats)
       (TableStats.columns pg_stats)
  /\ dom (TableStats.schema pg_stats)
     = list_to_set (TableStats.column_names pg_stats)
  /\ (NoDup pg_column_meta.*1 ->
      Forall (fun c => TableStats.schema pg_stats !! ColumnStats.name c
                       = Some (ColumnStats.dtype c))
        (TableStats.columns pg_stats)).
Proof.
  apply (build_table_stats_well_formed "public.orders" "staging"
           pg_column_meta pg_agg_stats "2026-02-19T10:00:00+00:00" pg_stats).
  reflexivity.
Defined.

(** X28. Statistics drift against their own baseline exactly when they are
    ill formed.  After a [save] of the statistics that returns, the drift
    check of the same statistics against the baseline then stored passes if
    and only if the keys of their schema are exactly their column names;
    otherwise it reports removed or added columns although nothing
    changed. *)
Theorem drift_against_own_baseline (self self' : store)
    (stats : TableStats.t) (written : bool) (config : SchemaDriftConfig.t) :
  BaselineStore.save self stats = Ok (written, self') ->
  exists b,
    BaselineStore.load self' (TableStats.table_name stats) = Ok (Some b)
    /\ (Forall (fun c => CheckResult.status c = PASS)
          (check_schema_drift stats config (Some b))
        <-> dom (TableStats.schema stats)
            = list_to_set (TableStats.column_names stats)).
Proof.
  intros Hsave.
  assert (Hstored : exists b,
    BaselineStore.load self' (TableStats.table_name stats) = Ok (Some b)
    /\ Baseline.schema b = TableStats.schema stats).
  { destruct (save_cases _ _ _ _ Hsave)
      as (existing & Hload & [(_ & -> & b & -> & Hsame) | (_ & ->)]).
    - exists b. split; [exact Hload|].
      apply not_true_iff_false in Hsame. rewrite has_changed_iff in Hsame.
      destruct (decide (Baseline.schema b = TableStats.schema stats)); tauto.
    - eexists. split; [apply load_written | reflexivity]. }
  destruct Hstored as (b & Hload & Hschema).
  exists b. split; [exact Hload|].
  unfold check_schema_drift, baseline_cols, current_cols. rewrite Hschema.
  set (current := list_to_set (TableStats.column_names stats) : gset string).
  set (previous := dom (TableStats.schema stats)).
  assert (Hdiag : previous = current ->
                  current ∖ previous = ∅ /\ previous ∖ current = ∅)
    by (intros ->; split; apply difference_diag_L).
  repeat case_bool_decide; simpl; try tauto;
    (split;
     [ intros Hall;
       first [ apply (anti_symm (⊆)); now apply empty_difference_subseteq_L
             | inversion Hall as [|? ? Hstatus _]; discriminate Hstatus ]
     | intros Heq; first [ now repeat constructor
                         | destruct (Hdiag Heq); exfalso; tauto ] ]).
Qed.

Lemma drift_against_own_baseline_witness :
  exists b,
    BaselineStore.load
      (<[BaselineStore._path (TableStats.table_name stats_1200) :=
           written_record stats_1200 2]> store_1000)
      (TableStats.table_name stats_1200) = Ok (Some b)
    /\ (Forall (fun c => CheckResult.status c = PASS)
          (check_schema_drift stats_1200 (SchemaDriftConfig.mk []) (Some b))
        <-> dom (TableStats.schema stats_1200)
            = list_to_set (TableStats.column_names stats_1200)).
Proof.
  apply (drift_against_own_baseline store_1000 _ stats_1200 true
           (SchemaDriftConfig.mk [])).
  reflexivity.
Defined.

(** ** Human mode and the tables that failed to collect *)

Lemma run_table_error_shape (config : TableConfig.t) (outcome : collected)
    (dry_run : bool) (self self' : store) (r : RunResult.t) :
  _run_table config outcome dry_run self = Ok (r, self') ->
  RunResult.error r = None \/ RunResult.results r = [].
Proof.
  unfold _run_table. destruct outcome as [message|stats].
  - intros [= <- _]. right. reflexivity.
  - destruct dry_run.
    + rewrite exec_dry_run_unfold.
      destruct (BaselineStore.load self (TableStats.table_name stats));
        cbn [mbind result_bind mret result_ret]; [|discriminate].
      intros [= <- _]. left. reflexivity.
    + rewrite exec_run_unfold.
      destruct (BaselineStore.load self (TableStats.table_name stats));
        cbn [mbind result_bind mret result_ret]; [|discriminate].
      destruct (BaselineStore.save self stats) as [[w s]|e];
        cbn [mbind result_bind mret result_ret fst snd]; [|discriminate].
      intros [= <- _]. left. reflexivity.
Qed.

Lemma cmd_run_results_error_shape (dry_run : bool)
    (tables : list (TableConfig.t * collected)) (self self' : store)
    (rs : list RunResult.t) :
  _cmd_run_results dry_run tables self = Ok (rs, self') ->
  Forall (fun r => RunResult.error r = None \/ RunResult.results r = []) rs.
Proof.
  revert self self' rs. induction tables as [|[config outcome] tables IH];
    intros self self' rs; cbn [_cmd_run_results].
  - intros [= <- _]. constructor.
  - destruct (_run_table config outcome dry_run self) as [[r self1]|e]
      eqn:Hone; cbn [mbind result_bind fst snd]; [|discriminate].
    destruct (_cmd_run_results dry_run tables self1) as [[rs' self2]|e]
      eqn:Hrest; cbn [mbind result_bind mret result_ret fst snd];
      [|discriminate].
    intros [= <- _]. constructor.
    + exact (run_table_error_shape _ _ _ _ _ _ Hone).
    + exact (IH _ _ _ Hrest).
Qed.

Lemma table_block_no_error_line (r : RunResult.t) (e : string) :
  RunResult.error r = None ->
  Out [Lit "     Error: "; Str e] ∉ ReporterHuman._print_table_block r.
Proof.
  intros Herr Hin. unfold ReporterHuman._print_table_block in Hin.
  rewrite Herr in Hin.
  apply elem_of_cons in Hin as [Hin | Hin]; [discriminate|].
  apply list_elem_of_In, List.in_flat_map in Hin as (c & _ & Hin).
  apply list_elem_of_In, elem_of_cons in Hin as [Hin | Hin];
    [discriminate|].
  destruct (CheckResult.hint c) as [[|h hs]|];
    try (apply elem_of_nil in Hin; contradiction).
  apply list_elem_of_singleton in Hin. discriminate.
Qed.

(** X29. Human mode never shows why a table could not be collected.  For
    the run results of the loop of [_cmd_run], no line of the human report is
    an [Error:] line, and every table whose collection failed is listed with
    the clean tables, as [0 checks passed]. *)
Theorem human_hides_collection_errors (dry_run : bool)
    (tables : list (TableConfig.t * collected)) (self self' : store)
    (rs : list RunResult.t) (duration_secs : Q) :
  _cmd_run_results dry_run tables self = Ok (rs, self') ->
  (forall e,
     Out [Lit "     Error: "; Str e]
     ∉ ReporterHuman._print_human (RunSummary.mk rs duration_secs))
  /\ forall r message,
       r ∈ rs -> RunResult.error r = Some message ->
       Out [Lit "  ✔  "; Str (RunResult.layer r); Lit ".";
            Str (RunResult.table r); Lit "  ("; Num 0;
            Lit " checks passed)"]
       ∈ ReporterHuman._print_human (RunSummary.mk rs duration_secs).
Proof.
  intros Hrun. apply cmd_run_results_error_shape in Hrun.
  rewrite Forall_forall in Hrun.
  unfold ReporterHuman._print_human. cbn [RunSummary.results].
  split.
  - intros e Hin.
    repeat (apply elem_of_app in Hin as [Hin | Hin]).
    + apply list_elem_of_singleton in Hin. discriminate.
    + apply list_elem_of_In, List.in_flat_map in Hin as (r & Hr & Hin).
      apply List.filter_In in Hr as [Hr Hissue].
      apply list_elem_of_In in Hr, Hin.
      destruct (Hrun r Hr) as [Herr | Hnone].
      * exact (table_block_no_error_line r e Herr Hin).
      * unfold RunResultP.has_failures, RunResultP.has_warnings,
          RunResultP.failures, RunResultP.warnings in Hissue.
        rewrite Hnone in Hissue. discriminate.
    + apply list_elem_of_singleton in Hin. discriminate.
    + destruct (_ && _); [apply list_elem_of_singleton in Hin; discriminate|].
      apply list_elem_of_singleton in Hin. discriminate.
    + apply list_elem_of_singleton in Hin. discriminate.
    + apply list_elem_of_singleton in Hin. discriminate.
    + destruct (List.filter _ rs) as [|c cs];
        [apply elem_of_nil in Hin; contradiction|].
      apply elem_of_app in Hin as [Hin | Hin].
      * apply list_elem_of_In, List.in_map_iff in Hin as (r & Hr & _).
        discriminate.
      * apply list_elem_of_singleton in Hin. discriminate.
  - intros r message Hr Herr.
    destruct (Hrun r Hr) as [Hnone | Hempty]; [congruence|].
    assert (Hclean : r ∈ List.filter
              (fun r => negb (RunResultP.has_failures r)
                        && negb (RunResultP.has_warnings r)) rs).
    { apply list_elem_of_In, List.filter_In. split; [now apply list_elem_of_In|].
      unfold RunResultP.has_failures, RunResultP.has_warnings,
        RunResultP.failures, RunResultP.warnings.
      rewrite Hempty. reflexivity. }
    rewrite !elem_of_app. do 6 right.
    destruct (List.filter _ rs) as [|c cs] eqn:Hfilter;
      [apply elem_of_nil in Hclean; contradiction|].
    rewrite elem_of_app. left.
    apply list_elem_of_In, List.in_map_iff. exists r.
    split; [now rewrite Hempty | now apply list_elem_of_In].
Qed.

Lemma human_hides_collection_errors_witness :
  (forall e,
     Out [Lit "     Error: "; Str e]
     ∉ ReporterHuman._print_human
         (RunSummary.mk
            [RunResult.mk "orders" "staging" [] false
               (Some "connection refused")] 0))
  /\ forall r message,
       r ∈ [RunResult.mk "orders" "staging" [] false
              (Some "connection refused")] ->
       RunResult.error r = Some message ->
       Out [Lit "  ✔  "; Str (RunResult.layer r); Lit ".";
            Str (RunResult.table r); Lit "  ("; Num 0;
            Lit " checks passed)"]
       ∈ ReporterHuman._print_human
           (RunSummary.mk
              [RunResult.mk "orders" "staging" [] false
                 (Some "connection refused")] 0).
Proof.
  apply (human_hides_collection_errors false
           [(make_config, CollectFailed "connection refused")] ∅ ∅).
  reflexivity.
Defined.

Lemma column_absent (stats : TableStats.t) (name : string) :
  name ∉ TableStats.column_names stats -> TableStats.column stats name = None.
Proof.
  unfold TableStats.column, TableStats.column_names.
  induction (TableStats.columns stats) as [|c cols IH]; simpl; [reflexivity|].
  intros Hnot. apply not_elem_of_cons in Hnot as [Hne Hnot].
  destruct (String.eqb_spec (ColumnStats.name c) name); [congruence|].
  exact (IH Hnot).
Qed.

Lemma build_table_stats_names (table layer : string)
    (column_meta : list (string * string))
    (agg_stats : Postgres.AggStats.t) (now : string) (stats : TableStats.t) :
  Postgres._build_table_stats table layer column_meta agg_stats now
  = Some stats ->
  TableStats.column_names stats = column_meta.*1.
Proof.
  unfold Postgres._build_table_stats.
  pose proof (build_columns_spec (Postgres.AggStats._row_count agg_stats)
                agg_stats column_meta [] ∅) as (Hnames & _).
  destruct (Postgres.build_columns _ agg_stats column_meta [] ∅)
    as [columns schema].
  destruct (Postgres.Layer_of_value layer) as [l|]; [|discriminate].
  intros [= <-]. exact Hnames.
Qed.

(** X30. A composite key cannot pass on statistics built by the Postgres
    adapter: the adapter only builds the columns of the table, so unless a
    column of the table itself carries the joined name, [check_unique] with
    two or more columns returns the one FAIL of the missing column, with no
    duplicate count. *)
Theorem composite_key_on_adapter_stats (table layer : string)
    (column_meta : list (string * string))
    (agg_stats : Postgres.AggStats.t) (now : string) (stats : TableStats.t)
    (columns : list string) :
  Postgres._build_table_stats table layer column_meta agg_stats now
  = Some stats ->
  (2 <= length columns)%nat ->
  join "|" columns ∉ column_meta.*1 ->
  exists r,
    check_unique stats (UniqueConfig.mk columns) = [r]
    /\ CheckResult.status r = FAIL
    /\ CheckResult.column r = Some (join "|" columns)
    /\ CheckResult.expected r = None
    /\ CheckResult.actual r = None.
Proof.
  intros Hbuilt Hlen Habsent.
  rewrite <- (build_table_stats_names _ _ _ _ _ _ Hbuilt) in Habsent.
  apply column_absent in Habsent.
  unfold check_unique. cbn [UniqueConfig.columns].
  destruct columns as [|c1 [|c2 columns]]; [simpl in Hlen; lia..|].
  rewrite Habsent. eexists. repeat split.
Qed.

Lemma composite_key_on_adapter_stats_witness :
  exists r,
    check_unique pg_stats (UniqueConfig.mk ["order_id"; "email"]) = [r]
    /\ CheckResult.status r = FAIL
    /\ CheckResult.column r = Some (join "|" ["order_id"; "email"])
    /\ CheckResult.expected r = None
    /\ CheckResult.actual r = None.
Proof.
  apply (composite_key_on_adapter_stats "public.orders" "staging"
           pg_column_meta pg_agg_stats "2026-02-19T10:00:00+00:00" pg_stats
           ["order_id"; "email"]).
  - reflexivity.
  - simpl. lia.
  - apply (bool_decide_unpack _). vm_compute. exact I.
Defined.
